(** * Serial register protocol of the STM32 robot controller

    A shallow embedding of [python_serial_reg/serial_reg.py]: the CRC-8
    routine [crc8_atm], the command encoder inside [_send_frame], the
    receive loop of [_read_serial_loop] and the two decoders
    [_decode_and_show_imu] and [_decode_and_log_cmd].

    Python integers are unbounded, so they are modelled by [Z]; the bit
    operators [&], [|], [^], [<<], [>>] are [Z.land], [Z.lor], [Z.lxor],
    [Z.shiftl], [Z.shiftr] (two's complement on negative numbers, as in
    Python).  A [bytearray] is a [list Z] whose elements lie in [0, 256).
    [time.time()] returns a binary64 float: the clock readings and the
    refresh test use the kernel's primitive floats. *)

From Stdlib Require Import String Ascii ZArith Bool Lia List.
From Stdlib Require Import PrimFloat SpecFloat FloatOps.
Import ListNotations.

Local Open Scope Z_scope.

(* ================================================================= *)
(** ** CRC-8 (polynomial 0x07, initial value 0x00) *)

Module Crc.

(** One turn of the inner [for _ in range(8)] loop. *)
Definition crc8_shift (crc : Z) : Z :=
  Z.land
    (if negb (Z.land crc 0x80 =? 0)
     then Z.lxor (Z.shiftl crc 1) 0x07
     else Z.shiftl crc 1)
    0xFF.

(** The body of [for byte in data]. *)
Definition crc8_byte (crc byte : Z) : Z :=
  Nat.iter 8 crc8_shift (Z.lxor crc byte).

Definition crc8_atm (data : list Z) : Z :=
  fold_left crc8_byte data 0x00.

(** The routine as the specification words it: an 8-bit accumulator,
    most significant bit first, shift left and reduce by 0x07 when the
    top bit (bit 7) was set, keep 8 bits. *)
Definition msb_first_step (poly acc : Z) : Z :=
  (if Z.testbit acc 7 then Z.lxor (2 * acc) poly else 2 * acc) mod 256.

Fixpoint msb_first_crc (poly acc : Z) (data : list Z) : Z :=
  match data with
  | [] => acc
  | byte :: rest =>
      let a0 := Z.lxor acc byte in
      let a1 := msb_first_step poly a0 in
      let a2 := msb_first_step poly a1 in
      let a3 := msb_first_step poly a2 in
      let a4 := msb_first_step poly a3 in
      let a5 := msb_first_step poly a4 in
      let a6 := msb_first_step poly a5 in
      let a7 := msb_first_step poly a6 in
      let a8 := msb_first_step poly a7 in
      msb_first_crc poly a8 rest
  end.

Definition crc8_spec (data : list Z) : Z := msb_first_crc 0x07 0x00 data.

Definition is_byte (b : Z) : Prop := 0 <= b < 256.

End Crc.
Import Crc.

(* ================================================================= *)
(** ** [struct.unpack('<BBBBIf f f f f f f B', packet)] *)

Module Struct.

(** Little-endian unsigned integer held in a run of bytes. *)
Definition le_uint (bytes : list Z) : Z :=
  fold_right (fun b acc => b + 256 * acc) 0 bytes.

(** The bytes [off .. off+3] of a packet. *)
Definition word_at (off : nat) (packet : list Z) : Z :=
  le_uint (firstn 4 (skipn off packet)).

(** An IEEE-754 binary32 bit pattern read as a number. *)
Definition binary32_of_bits (w : Z) : spec_float :=
  let sign := Z.testbit w 31 in
  let e := Z.land (Z.shiftr w 23) 0xFF in
  let m := Z.land w 0x7FFFFF in
  if e =? 255 then (if m =? 0 then S754_infinity sign else S754_nan)
  else if e =? 0 then
    match m with
    | Zpos p => S754_finite sign p (-149)
    | _ => S754_zero sign
    end
  else
    match m + 0x800000 with
    | Zpos p => S754_finite sign p (e - 150)
    | _ => S754_zero sign
    end.

(** Format code [f]: a binary32 widened to Python's binary64 float. *)
Definition float_at (off : nat) (packet : list Z) : float :=
  SF2Prim (binary32_of_bits (word_at off packet)).

(** The tuple returned for the 13 format codes [BBBB I fffffff B]. *)
Record Unpacked := mkUnpacked {
  u_b0 : Z; u_b1 : Z; u_b2 : Z; u_b3 : Z;
  u_timestamp : Z;
  u_f5 : float; u_f6 : float; u_f7 : float;
  u_f8 : float; u_f9 : float; u_f10 : float;
  u_f11 : float;
  u_crc : Z
}.

Definition calcsize : nat := 37.

(** [None] stands for [struct.error] (buffer of the wrong size). *)
Definition unpack (packet : list Z) : option Unpacked :=
  if (length packet =? calcsize)%nat then
    Some {| u_b0 := nth 0 packet 0; u_b1 := nth 1 packet 0;
            u_b2 := nth 2 packet 0; u_b3 := nth 3 packet 0;
            u_timestamp := word_at 4 packet;
            u_f5 := float_at 8 packet; u_f6 := float_at 12 packet;
            u_f7 := float_at 16 packet;
            u_f8 := float_at 20 packet; u_f9 := float_at 24 packet;
            u_f10 := float_at 28 packet;
            u_f11 := float_at 32 packet;
            u_crc := nth 36 packet 0 |}
  else None.

End Struct.

(* ================================================================= *)
(** ** The Python built-ins used on the entry fields

    Text is modelled on code points below 256; [str.strip()] and
    [int(text, base)] follow CPython ([str.isspace], [PyLong_FromString]):
    optional sign, optional [0x] prefix in base 16, digits that may be
    separated by single underscores, surrounding white space, and the
    limit of 4300 digits for a base that is not a power of two. *)

Module Py.

Definition code (c : ascii) : Z := Z.of_N (N_of_ascii c).

Definition between (lo hi n : Z) : bool := (lo <=? n) && (n <=? hi).

(** [str.isspace] for one character. *)
Definition isspace (c : ascii) : bool :=
  let n := code c in
  between 9 13 n || between 28 32 n || (n =? 0x85) || (n =? 0xA0).

(** White space in the C sense, as the integer parser skips it. *)
Definition c_isspace (c : ascii) : bool :=
  let n := code c in between 9 13 n || (n =? 32).

Fixpoint lstrip (s : list ascii) : list ascii :=
  match s with
  | c :: s' => if isspace c then lstrip s' else s
  | [] => []
  end.

Definition rstrip (s : list ascii) : list ascii := rev (lstrip (rev s)).

Definition strip (s : string) : list ascii :=
  rstrip (lstrip (list_ascii_of_string s)).

(** Before parsing, a character from 127 up becomes a blank when it is
    white space and an invalid character otherwise (no code point
    below 256 is a decimal digit other than 0-9). *)
Definition to_ascii_char (c : ascii) : ascii :=
  if code c <? 127 then c else if isspace c then " "%char else "?"%char.

Definition digit_value (c : ascii) : option Z :=
  let n := code c in
  if between 48 57 n then Some (n - 48)
  else if between 97 122 n then Some (n - 87)
  else if between 65 90 n then Some (n - 55)
  else None.

Fixpoint skip_c_space (s : list ascii) : list ascii :=
  match s with
  | c :: s' => if c_isspace c then skip_c_space s' else s
  | [] => []
  end.

(** Scan the digits: the value, the number of digits and what follows;
    [None] on a doubled or trailing underscore. *)
Fixpoint scan_digits (base : Z) (s : list ascii) (prev_us : bool)
         (digits : nat) (acc : Z) : option (Z * nat * list ascii) :=
  let stop := if prev_us then None else Some (acc, digits, s) in
  match s with
  | c :: s' =>
      if Ascii.eqb c "_" then
        if prev_us then None else scan_digits base s' true digits acc
      else
        match digit_value c with
        | Some d =>
            if d <? base
            then scan_digits base s' false (S digits) (acc * base + d)
            else stop
        | None => stop
        end
  | [] => stop
  end.

Definition max_str_digits : nat := 4300.

Definition is_x (c : ascii) : bool := Ascii.eqb c "x" || Ascii.eqb c "X".

(** [None] stands for [ValueError]. *)
Definition long_from_string (base : Z) (s : list ascii) : option Z :=
  let s := skip_c_space s in
  let '(negative, s) :=
    match s with
    | c :: s' =>
        if Ascii.eqb c "+" then (false, s')
        else if Ascii.eqb c "-" then (true, s')
        else (false, s)
    | [] => (false, s)
    end in
  let s :=
    match s with
    | c0 :: c1 :: s' =>
        if (base =? 16) && Ascii.eqb c0 "0" && is_x c1 then
          match s' with
          | c2 :: s'' => if Ascii.eqb c2 "_" then s'' else s'
          | [] => s'
          end
        else s
    | _ => s
    end in
  match s with
  | c :: _ => if Ascii.eqb c "_" then None else
      match scan_digits base s false 0 0 with
      | None => None
      | Some (v, digits, rest) =>
          if (digits =? 0)%nat then None
          else if negb (base =? 16) && (max_str_digits <? digits)%nat
          then None
          else
            match skip_c_space rest with
            | [] => Some (if negative then - v else v)
            | _ :: _ => None
            end
      end
  | [] => None
  end.

(** [int(text, base)] for base 10 or 16. *)
Definition int (text : list ascii) (base : Z) : option Z :=
  long_from_string base (map to_ascii_char text).

(** [bytearray(list)]: every element must be in [range(256)]. *)
Definition bytearray (l : list Z) : option (list Z) :=
  if forallb (fun b => (0 <=? b) && (b <? 256)) l then Some l else None.

End Py.

(* ================================================================= *)
(** ** The application object

    Only the attributes that the protocol code reads or writes are
    kept.  Widgets are reduced to their content: an entry to its text,
    the switch to the number returned by [get()], a text box to the
    lines or the record it shows, the serial port to the frames written
    to it.  Two ghost fields record the history the properties below speak of:
    how many times [time.time()] was read, and the packets handed to the
    two decoders, in order. *)

Inductive Call : Type :=
| CallImu (packet : list Z)
| CallCmd (packet : list Z).

Inductive LogLine : Type :=
| LogNotConnected                                  (* "Erreur: Non connecté" *)
| LogFormat                                        (* "Erreur: Format invalide" *)
| LogTx (is_read : bool) (addr : Z) (frame : list Z)
| LogRx (addr header d0 d1 crc value : Z)
| LogDecodeError.                                  (* "Erreur Decode CMD: ..." *)

(** What the telemetry box shows after an update. *)
Record ImuText := mkImuText {
  timestamp : Z;
  ax : float; ay : float; az : float;
  gx : float; gy : float; gz : float;
  speed : float
}.

Record SerialApp := mkApp {
  is_connected : bool;
  ser : bool;                         (* [self.ser] is a port object *)
  is_auto_sending : bool;
  rx_buffer : list Z;
  last_imu_update : float;
  entry_reg : string;
  switch_rw : Z;
  entry_data : string;
  slider_servo : option Z;            (* last value set, with its label *)
  slider_motor : option Z;
  txt_log : list LogLine;
  txt_imu : option ImuText;
  ser_written : list (list Z);        (* frames passed to [ser.write] *)
  time_calls : nat;                   (* ghost *)
  decoder_calls : list Call           (* ghost *)
}.

Definition set_rx_buffer (v : list Z) (a : SerialApp) : SerialApp :=
  mkApp (is_connected a) (ser a) (is_auto_sending a) v (last_imu_update a)
        (entry_reg a) (switch_rw a) (entry_data a) (slider_servo a)
        (slider_motor a) (txt_log a) (txt_imu a) (ser_written a)
        (time_calls a) (decoder_calls a).

Definition set_last_imu_update (v : float) (a : SerialApp) : SerialApp :=
  mkApp (is_connected a) (ser a) (is_auto_sending a) (rx_buffer a) v
        (entry_reg a) (switch_rw a) (entry_data a) (slider_servo a)
        (slider_motor a) (txt_log a) (txt_imu a) (ser_written a)
        (time_calls a) (decoder_calls a).

Definition set_entry_data (v : string) (a : SerialApp) : SerialApp :=
  mkApp (is_connected a) (ser a) (is_auto_sending a) (rx_buffer a)
        (last_imu_update a)
        (entry_reg a) (switch_rw a) v (slider_servo a)
        (slider_motor a) (txt_log a) (txt_imu a) (ser_written a)
        (time_calls a) (decoder_calls a).

Definition set_slider_servo (v : Z) (a : SerialApp) : SerialApp :=
  mkApp (is_connected a) (ser a) (is_auto_sending a) (rx_buffer a)
        (last_imu_update a)
        (entry_reg a) (switch_rw a) (entry_data a) (Some v)
        (slider_motor a) (txt_log a) (txt_imu a) (ser_written a)
        (time_calls a) (decoder_calls a).

Definition set_slider_motor (v : Z) (a : SerialApp) : SerialApp :=
  mkApp (is_connected a) (ser a) (is_auto_sending a) (rx_buffer a)
        (last_imu_update a)
        (entry_reg a) (switch_rw a) (entry_data a) (slider_servo a)
        (Some v) (txt_log a) (txt_imu a) (ser_written a)
        (time_calls a) (decoder_calls a).

(** [_log_cmd]: one more line at the end of the log box. *)
Definition log_cmd (l : LogLine) (a : SerialApp) : SerialApp :=
  mkApp (is_connected a) (ser a) (is_auto_sending a) (rx_buffer a)
        (last_imu_update a)
        (entry_reg a) (switch_rw a) (entry_data a) (slider_servo a)
        (slider_motor a) (txt_log a ++ [l]) (txt_imu a) (ser_written a)
        (time_calls a) (decoder_calls a).

Definition set_txt_imu (v : ImuText) (a : SerialApp) : SerialApp :=
  mkApp (is_connected a) (ser a) (is_auto_sending a) (rx_buffer a)
        (last_imu_update a)
        (entry_reg a) (switch_rw a) (entry_data a) (slider_servo a)
        (slider_motor a) (txt_log a) (Some v) (ser_written a)
        (time_calls a) (decoder_calls a).

Definition ser_write (frame : list Z) (a : SerialApp) : SerialApp :=
  mkApp (is_connected a) (ser a) (is_auto_sending a) (rx_buffer a)
        (last_imu_update a)
        (entry_reg a) (switch_rw a) (entry_data a) (slider_servo a)
        (slider_motor a) (txt_log a) (txt_imu a)
        (ser_written a ++ [frame])
        (time_calls a) (decoder_calls a).

Definition tick (a : SerialApp) : SerialApp :=
  mkApp (is_connected a) (ser a) (is_auto_sending a) (rx_buffer a)
        (last_imu_update a)
        (entry_reg a) (switch_rw a) (entry_data a) (slider_servo a)
        (slider_motor a) (txt_log a) (txt_imu a) (ser_written a)
        (S (time_calls a)) (decoder_calls a).

Definition called (c : Call) (a : SerialApp) : SerialApp :=
  mkApp (is_connected a) (ser a) (is_auto_sending a) (rx_buffer a)
        (last_imu_update a)
        (entry_reg a) (switch_rw a) (entry_data a) (slider_servo a)
        (slider_motor a) (txt_log a) (txt_imu a) (ser_written a)
        (time_calls a) (decoder_calls a ++ [c]).


(** The object built by [__init__]. *)
Definition init : SerialApp :=
  mkApp false false false [] 0%float "" 0 "" (Some 0) (Some 0) [] None [] 0 [].

(** The object when [_toggle_connection] has opened the port and is
    about to start the reading thread. *)
Definition connected : SerialApp :=
  mkApp true true false [] 0%float "" 0 "" (Some 0) (Some 0) [] None [] 0 [].

(* ================================================================= *)
(** ** [_send_frame]: the command encoder *)

(** The four bytes computed between the parsing of the fields and
    [ser.write]; [None] when [bytearray] refuses them ([ValueError]). *)
Definition frame_bytes (addr : Z) (is_read : bool) (data_val : Z)
  : option (list Z) :=
  let hdr := Z.lor (if is_read then 0x80 else 0x00) addr in
  let '(d0, d1) :=
    if is_read
    then (Z.land data_val 0xFF, 0)
    else (Z.land data_val 0xFF, Z.land (Z.shiftr data_val 8) 0xFF) in
  let payload := [hdr; d0; d1] in
  let crc := crc8_atm payload in
  Py.bytearray (payload ++ [crc]).

(** Entry to slider synchronisation, in WRITE mode only. *)
Definition sync_sliders (addr : Z) (is_read : bool) (data_val : Z)
           (a : SerialApp) : SerialApp :=
  if negb is_read then
    if addr =? 0x00 then set_slider_servo data_val a
    else if addr =? 0x01 then set_slider_motor data_val a
    else a
  else a.

(** [int(data_str) if data_str else 0]; [None] stands for [ValueError]. *)
Definition int_or_zero (data_str : list ascii) : option Z :=
  match data_str with
  | _ :: _ => Py.int data_str 10
  | [] => Some 0
  end.

Definition _send_frame (a : SerialApp) : SerialApp :=
  if negb (is_connected a) || negb (ser a) then log_cmd LogNotConnected a
  else
    let addr_str := Py.strip (entry_reg a) in
    match Py.int addr_str 16 with
    | None => log_cmd LogFormat a
    | Some n =>
        let addr := Z.land n 0x7F in
        let is_read := switch_rw a =? 1 in
        let data_str := Py.strip (entry_data a) in
        match int_or_zero data_str with
        | None => log_cmd LogFormat a
        | Some data_val =>
            let a := sync_sliders addr is_read data_val a in
            match frame_bytes addr is_read data_val with
            | None => log_cmd LogFormat a
            | Some frame =>
                let a := ser_write frame a in
                if negb (is_auto_sending a)
                then log_cmd (LogTx is_read addr frame) a
                else a
            end
        end
    end.

(* ================================================================= *)
(** ** The two decoders *)

(** How a call ends: it returns, or an exception leaves it. *)
Inductive Exn : Type := StructError | IndexError.

Inductive Outcome (A : Type) : Type :=
| Returned (a : A)
| Raised (e : Exn) (a : A).
Arguments Returned {A} a.
Arguments Raised {A} e a.

Definition imu_text (u : Struct.Unpacked) : ImuText :=
  {| timestamp := Struct.u_timestamp u;
     ax := Struct.u_f5 u; ay := Struct.u_f6 u; az := Struct.u_f7 u;
     gx := Struct.u_f8 u; gy := Struct.u_f9 u; gz := Struct.u_f10 u;
     speed := Struct.u_f11 u |}.

(** The literal [0.1] of the refresh test, as the binary64 number Python
    reads it. *)
Definition refresh_period : float := 0x1.999999999999ap-4%float.

Section Clock.

(** [clock n] is what the [n]-th call of [time.time()] returns. *)
Variable clock : nat -> float.

(** The [try] block of [_decode_and_show_imu]. *)
Definition show_imu_try (a : SerialApp) (packet : list Z)
  : Outcome SerialApp :=
  let now := clock (time_calls a) in
  let a := tick a in
  if ltb (sub now (last_imu_update a)) refresh_period then Returned a
  else
    let a := set_last_imu_update now a in
    match Struct.unpack packet with
    | None => Raised StructError a
    | Some unpacked => Returned (set_txt_imu (imu_text unpacked) a)
    end.

(** [except Exception: pass]. *)
Definition _decode_and_show_imu (a : SerialApp) (packet : list Z)
  : Outcome SerialApp :=
  match show_imu_try (called (CallImu packet) a) packet with
  | Returned a' => Returned a'
  | Raised _ a' => Returned a'
  end.

(** The [try] block of [_decode_and_log_cmd]. *)
Definition log_cmd_try (a : SerialApp) (packet : list Z)
  : Outcome SerialApp :=
  match packet with
  | header :: d0 :: d1 :: crc :: _ =>
      let addr := Z.land header 0x7F in
      let value := Z.lor d0 (Z.shiftl d1 8) in
      let value := if 32767 <? value then value - 65536 else value in
      Returned (log_cmd (LogRx addr header d0 d1 crc value) a)
  | _ => Raised IndexError a
  end.

(** [except Exception as e: self._log_cmd(...)]. *)
Definition _decode_and_log_cmd (a : SerialApp) (packet : list Z)
  : Outcome SerialApp :=
  match log_cmd_try (called (CallCmd packet) a) packet with
  | Returned a' => Returned a'
  | Raised _ a' => Returned (log_cmd LogDecodeError a')
  end.

(* =============================================================== *)
(** ** [_read_serial_loop] *)

Definition IMU_SIZE : nat := 37.
Definition CMD_SIZE : nat := 4.

(** The leaves of the decision tree inside [while len(rx_buffer) > 0]. *)
Inductive Action : Type :=
| Break
| DecodeImu (packet : list Z)      (* decode, [del rx_buffer[:IMU_SIZE]] *)
| DecodeCmd (packet : list Z)      (* decode, [del rx_buffer[:CMD_SIZE]] *)
| DropByte.                        (* [del rx_buffer[:1]] *)

Definition head_action (buf : list Z) : Action :=
  if nth 0 buf 0 =? 0xAA then
    if (length buf <? 2)%nat then Break
    else if nth 1 buf 0 =? 0x55 then
      if (length buf <? IMU_SIZE)%nat then Break
      else
        let packet := firstn IMU_SIZE buf in
        if crc8_atm (removelast packet) =? last packet 0
        then DecodeImu packet
        else DropByte
    else DropByte
  else if Z.land (nth 0 buf 0) 0x80 =? 0x00 then
    if (length buf <? CMD_SIZE)%nat then Break
    else
      let packet := firstn CMD_SIZE buf in
      if crc8_atm (removelast packet) =? last packet 0
      then DecodeCmd packet
      else DropByte
  else DropByte.

Definition del_front (n : nat) (a : SerialApp) : SerialApp :=
  set_rx_buffer (skipn n (rx_buffer a)) a.

(** One turn of the inner loop: the state, and whether the loop goes on
    ([true]) or stops ([false]); an exception leaving a decoder would
    reach [except Exception: break] of the outer loop. *)
Definition loop_body (a : SerialApp) : Outcome (SerialApp * bool) :=
  match head_action (rx_buffer a) with
  | Break => Returned (a, false)
  | DecodeImu packet =>
      match _decode_and_show_imu a packet with
      | Returned a' => Returned (del_front IMU_SIZE a', true)
      | Raised e a' => Raised e (a', false)
      end
  | DecodeCmd packet =>
      match _decode_and_log_cmd a packet with
      | Returned a' => Returned (del_front CMD_SIZE a', true)
      | Raised e a' => Raised e (a', false)
      end
  | DropByte => Returned (del_front 1 a, true)
  end.

(** [while len(self.rx_buffer) > 0: ...]; [None] when the turns allowed
    by [fuel] do not suffice. *)
Fixpoint while_rx (fuel : nat) (a : SerialApp) : option (Outcome SerialApp) :=
  if (0 <? length (rx_buffer a))%nat then
    match fuel with
    | O => None
    | S fuel' =>
        match loop_body a with
        | Returned (a', true) => while_rx fuel' a'
        | Returned (a', false) => Some (Returned a')
        | Raised e (a', _) => Some (Raised e a')
        end
    end
  else Some (Returned a).

(** One turn of the outer loop, [data] being the bytes waiting on the
    port: nothing is read (and the thread sleeps) when there are none. *)
Definition read_turn (a : SerialApp) (data : list Z)
  : option (Outcome SerialApp) :=
  if (0 <? length data)%nat then
    let a := set_rx_buffer (rx_buffer a ++ data) a in
    while_rx (length (rx_buffer a)) a
  else Some (Returned a).

(** The outer loop over successive reads; an exception ends it. *)
Fixpoint _read_serial_loop (a : SerialApp) (reads : list (list Z))
  : option (Outcome SerialApp) :=
  match reads with
  | [] => Some (Returned a)
  | data :: reads' =>
      match read_turn a data with
      | Some (Returned a') => _read_serial_loop a' reads'
      | r => r
      end
  end.

End Clock.

(* ================================================================= *)
(** ** The trace of the inner loop

    [scan buf] is what [while_rx] does to the accumulator alone: the
    packets handed to the decoders, in order, and the bytes left. *)

Fixpoint scan_fuel (fuel : nat) (buf : list Z) : list Call * list Z :=
  match fuel with
  | O => ([], buf)
  | S fuel' =>
      match head_action buf with
      | Break => ([], buf)
      | DecodeImu packet =>
          let '(calls, rest) := scan_fuel fuel' (skipn IMU_SIZE buf) in
          (CallImu packet :: calls, rest)
      | DecodeCmd packet =>
          let '(calls, rest) := scan_fuel fuel' (skipn CMD_SIZE buf) in
          (CallCmd packet :: calls, rest)
      | DropByte => scan_fuel fuel' (skipn 1 buf)
      end
  end.

Definition scan (buf : list Z) : list Call * list Z :=
  scan_fuel (length buf) buf.

(** The frames accepted by the two CRC tests. *)
Definition crc_ok (packet : list Z) : Prop :=
  crc8_atm (removelast packet) = last packet 0.

Definition imu_frame (packet : list Z) : Prop :=
  length packet = IMU_SIZE /\ nth 0 packet 0 = 0xAA /\ nth 1 packet 0 = 0x55 /\
  crc_ok packet.

Definition cmd_frame (packet : list Z) : Prop :=
  length packet = CMD_SIZE /\ Z.land (nth 0 packet 0) 0x80 = 0 /\
  crc_ok packet.

Definition call_packet (c : Call) : list Z :=
  match c with CallImu p => p | CallCmd p => p end.

Definition checked (c : Call) : Prop :=
  match c with
  | CallImu p => length p = IMU_SIZE /\ crc_ok p
  | CallCmd p => length p = CMD_SIZE /\ crc_ok p
  end.

(* ================================================================= *)
(** ** The outer loop and the log, as traces *)

(** The log line written for a packet by [_decode_and_log_cmd]. *)
Definition cmd_log_line (packet : list Z) : LogLine :=
  match packet with
  | header :: d0 :: d1 :: crc :: _ =>
      let value := Z.lor d0 (Z.shiftl d1 8) in
      LogRx (Z.land header 0x7F) header d0 d1 crc
            (if 32767 <? value then value - 65536 else value)
  | _ => LogDecodeError
  end.

Definition call_log (c : Call) : list LogLine :=
  match c with
  | CallImu _ => []
  | CallCmd p => [cmd_log_line p]
  end.

(** The accumulator, the decoder calls and the log after a run, seen
    from a state [a] before it. *)
Definition follows (a a' : SerialApp) (calls : list Call) (rest : list Z)
  : Prop :=
  rx_buffer a' = rest /\
  decoder_calls a' = decoder_calls a ++ calls /\
  txt_log a' = txt_log a ++ flat_map call_log calls.

(** The trace of the outer loop over successive reads. *)
Fixpoint feed (buf : list Z) (reads : list (list Z)) : list Call * list Z :=
  match reads with
  | [] => ([], buf)
  | data :: reads' =>
      let '(calls, rest) :=
        if (0 <? length data)%nat then scan (buf ++ data) else ([], buf) in
      let '(calls', rest') := feed rest reads' in
      (calls ++ calls', rest')
  end.

(** The state in which a call ends. *)
Definition outcome_state {A : Type} (o : Outcome A) : A :=
  match o with
  | Returned a => a
  | Raised _ a => a
  end.

(** The decoders run on a list of packets, one after the other. *)
Definition apply_call (clock : nat -> float) (a : SerialApp) (c : Call)
  : SerialApp :=
  match c with
  | CallImu p => outcome_state (_decode_and_show_imu clock a p)
  | CallCmd p => outcome_state (_decode_and_log_cmd a p)
  end.

Definition apply_calls (clock : nat -> float) (calls : list Call)
           (a : SerialApp) : SerialApp :=
  fold_left (apply_call clock) calls a.

(** The four ways in which the head of the accumulator is rejected. *)
Definition rejects (buf : list Z) : Prop :=
  (nth 0 buf 0 = 0xAA /\ (2 <= length buf)%nat /\ nth 1 buf 0 <> 0x55) \/
  (nth 0 buf 0 = 0xAA /\ nth 1 buf 0 = 0x55 /\ (IMU_SIZE <= length buf)%nat /\
   ~ crc_ok (firstn IMU_SIZE buf)) \/
  (Z.land (nth 0 buf 0) 0x80 = 0 /\ (CMD_SIZE <= length buf)%nat /\
   ~ crc_ok (firstn CMD_SIZE buf)) \/
  ((1 <= length buf)%nat /\ Z.land (nth 0 buf 0) 0x80 <> 0 /\
   nth 0 buf 0 <> 0xAA).

(* ================================================================= *)
(** ** Sample states, frames and clocks *)

(** The sender with register field [01], the switch on WRITE and data
    field [-500]. *)
Definition write_motor_minus_500 : SerialApp :=
  mkApp true true false [] 0%float "01" 0 "-500" (Some 0) (Some 0) [] None [] 0 [].

(** A register and a value that do not fit: register 0x1FF is sent as
    0x7F and 70000 as its low 16 bits. *)
Definition write_out_of_range : SerialApp :=
  mkApp true true false [] 0%float "1ff" 0 "70000" (Some 0) (Some 0) [] None [] 0 [].

(** Register 0x2A in READ mode, the data field blank. *)
Definition read_reg_2a_no_data : SerialApp :=
  mkApp true true false [] 0%float "2A" 1 "  " (Some 0) (Some 0) [] None [] 0 [].

(** Two telemetry frames: time stamps 1000 and 1010, the seven floats
    1.0 to 7.0, the CRC in the last place. *)
Definition seven_floats : list Z :=
  [0x00; 0x00; 0x80; 0x3F;  0x00; 0x00; 0x00; 0x40;  0x00; 0x00; 0x40; 0x40;
   0x00; 0x00; 0x80; 0x40;  0x00; 0x00; 0xA0; 0x40;  0x00; 0x00; 0xC0; 0x40;
   0x00; 0x00; 0xE0; 0x40].

Definition with_crc (payload : list Z) : list Z := payload ++ [crc8_atm payload].

Definition telemetry_1000 : list Z :=
  with_crc ([0xAA; 0x55; 0x00; 0x00; 0xE8; 0x03; 0x00; 0x00] ++ seven_floats).

Definition telemetry_1010 : list Z :=
  with_crc ([0xAA; 0x55; 0x00; 0x00; 0xF2; 0x03; 0x00; 0x00] ++ seven_floats).

Definition shown (t : Z) : ImuText :=
  mkImuText t 1%float 2%float 3%float 4%float 5%float 6%float 7%float.

(** Two readings of the clock 31.25 ms apart, and a clock that stands
    still. *)
Definition clock_31ms (n : nat) : float :=
  match n with
  | O => 1700000000%float
  | S _ => 1700000000.03125%float
  end.

Definition clock_still (n : nat) : float := 1700000000%float.

(* ================================================================= *)
(** ** What the loop leaves and what it takes *)

(** An accumulator on which the loop can decide nothing yet: empty, a
    lone 0xAA, the start 0xAA 0x55 of a telemetry frame short of 37
    bytes, or a first byte with bit 7 clear short of 4 bytes. *)
Definition waiting (buf : list Z) : Prop :=
  buf = [] \/
  (nth 0 buf 0 = 0xAA /\ length buf = 1%nat) \/
  (nth 0 buf 0 = 0xAA /\ nth 1 buf 0 = 0x55 /\
   (2 <= length buf < IMU_SIZE)%nat) \/
  (Z.land (nth 0 buf 0) 0x80 = 0 /\ (1 <= length buf < CMD_SIZE)%nat).

(** [carved buf calls rest]: the packets of [calls] lie in [buf] in that
    order, one after the other without overlap, single dropped bytes
    between them, and [rest] is the end of [buf]. *)
Inductive carved : list Z -> list Call -> list Z -> Prop :=
| carved_rest (rest : list Z) : carved rest [] rest
| carved_drop (b : Z) (buf : list Z) (calls : list Call) (rest : list Z) :
    carved buf calls rest -> carved (b :: buf) calls rest
| carved_imu (p buf : list Z) (calls : list Call) (rest : list Z) :
    imu_frame p -> carved buf calls rest ->
    carved (p ++ buf) (CallImu p :: calls) rest
| carved_cmd (p buf : list Z) (calls : list Call) (rest : list Z) :
    cmd_frame p -> carved buf calls rest ->
    carved (p ++ buf) (CallCmd p :: calls) rest.

(** The bytes taken by a list of decoder calls. *)
Definition bytes_taken (calls : list Call) : nat :=
  list_sum (map (fun c => length (call_packet c)) calls).

(* ================================================================= *)
(** ** The window: heartbeat, sliders, emergency stop, connection

    The handlers of the buttons and sliders work on the application
    object and on three more things: the flag [stop_thread], the calls of
    [_auto_send_loop] that [self.after(100, ...)] has scheduled and that
    have not run yet, and the two log lines that only these handlers
    write.  Button and label texts are not kept. *)

(** [int(value)] on a float and [str(n)] on an integer. *)
Module PyConv.

(** Truncation towards zero; [None] stands for the [ValueError] (NaN) or
    [OverflowError] (infinity) that [int] raises. *)
Definition int_of_float (x : float) : option Z :=
  match Prim2SF x with
  | S754_zero _ => Some 0
  | S754_finite s m e =>
      let mag := if 0 <=? e then Z.pos m * 2 ^ e else Z.pos m / 2 ^ (- e) in
      Some (if s then - mag else mag)
  | S754_infinity _ => None
  | S754_nan => None
  end.

Definition digit_char (d : Z) : ascii := ascii_of_N (Z.to_N (48 + d)).

(** The decimal digits of a natural number, the least significant
    first; [fuel] bounds their number. *)
Fixpoint digits_rev (fuel : nat) (n : Z) : list Z :=
  match fuel with
  | O => []
  | S fuel' =>
      (n mod 10) :: (if n / 10 =? 0 then [] else digits_rev fuel' (n / 10))
  end.

Definition decimal (n : Z) : list ascii :=
  map digit_char (rev (digits_rev (S (Z.to_nat (Z.log2 n))) n)).

Definition str_chars (n : Z) : list ascii :=
  if n <? 0 then "-"%char :: decimal (- n) else decimal n.

Definition str (n : Z) : string := string_of_list_ascii (str_chars n).

End PyConv.

Definition is_digit (d : Z) : Prop := 0 <= d < 10.

(** The digits that [PyConv.decimal] prints, the most significant
    first. *)
Definition digits_of (n : Z) : list Z :=
  rev (PyConv.digits_rev (S (Z.to_nat (Z.log2 n))) n).

Definition set_is_connected (v : bool) (a : SerialApp) : SerialApp :=
  mkApp v (ser a) (is_auto_sending a) (rx_buffer a) (last_imu_update a)
        (entry_reg a) (switch_rw a) (entry_data a) (slider_servo a)
        (slider_motor a) (txt_log a) (txt_imu a) (ser_written a)
        (time_calls a) (decoder_calls a).

Definition set_ser (v : bool) (a : SerialApp) : SerialApp :=
  mkApp (is_connected a) v (is_auto_sending a) (rx_buffer a)
        (last_imu_update a)
        (entry_reg a) (switch_rw a) (entry_data a) (slider_servo a)
        (slider_motor a) (txt_log a) (txt_imu a) (ser_written a)
        (time_calls a) (decoder_calls a).

Definition set_is_auto_sending (v : bool) (a : SerialApp) : SerialApp :=
  mkApp (is_connected a) (ser a) v (rx_buffer a) (last_imu_update a)
        (entry_reg a) (switch_rw a) (entry_data a) (slider_servo a)
        (slider_motor a) (txt_log a) (txt_imu a) (ser_written a)
        (time_calls a) (decoder_calls a).

Definition set_entry_reg (v : string) (a : SerialApp) : SerialApp :=
  mkApp (is_connected a) (ser a) (is_auto_sending a) (rx_buffer a)
        (last_imu_update a)
        v (switch_rw a) (entry_data a) (slider_servo a)
        (slider_motor a) (txt_log a) (txt_imu a) (ser_written a)
        (time_calls a) (decoder_calls a).

Definition set_switch_rw (v : Z) (a : SerialApp) : SerialApp :=
  mkApp (is_connected a) (ser a) (is_auto_sending a) (rx_buffer a)
        (last_imu_update a)
        (entry_reg a) v (entry_data a) (slider_servo a)
        (slider_motor a) (txt_log a) (txt_imu a) (ser_written a)
        (time_calls a) (decoder_calls a).

(** The log lines written outside [_send_frame] and the decoders. *)
Inductive Notice : Type :=
| NoticeConnexion                    (* "Erreur connexion: ..." *)
| NoticeAru.                         (* "!!! ARU SEND !!!" *)

Record Window := mkWindow {
  sapp : SerialApp;
  stop_thread : bool;
  ticks_pending : nat;               (* scheduled [_auto_send_loop] calls *)
  notices : list (nat * Notice)      (* each with the length of [txt_log]
                                        when it was written *)
}.

Definition on_app (f : SerialApp -> SerialApp) (w : Window) : Window :=
  mkWindow (f (sapp w)) (stop_thread w) (ticks_pending w) (notices w).

Definition set_stop_thread (v : bool) (w : Window) : Window :=
  mkWindow (sapp w) v (ticks_pending w) (notices w).

Definition set_ticks_pending (n : nat) (w : Window) : Window :=
  mkWindow (sapp w) (stop_thread w) n (notices w).

Definition notice (n : Notice) (w : Window) : Window :=
  mkWindow (sapp w) (stop_thread w) (ticks_pending w)
           (notices w ++ [(length (txt_log (sapp w)), n)]).

(** The window when [__init__] returns. *)
Definition window_init : Window := mkWindow init false 0 [].

Definition _auto_send_loop (w : Window) : Window :=
  if is_auto_sending (sapp w) && is_connected (sapp w) then
    let w := on_app _send_frame w in
    set_ticks_pending (S (ticks_pending w)) w
  else on_app (set_is_auto_sending false) w.

Definition _toggle_auto_send (w : Window) : Window :=
  if negb (is_connected (sapp w)) then on_app (log_cmd LogNotConnected) w
  else if negb (is_auto_sending (sapp w)) then
    _auto_send_loop (on_app (set_is_auto_sending true) w)
  else on_app (set_is_auto_sending false) w.

(** The timer runs one scheduled call of [_auto_send_loop], if any. *)
Definition after_fires (w : Window) : Window :=
  match ticks_pending w with
  | O => w
  | S n => _auto_send_loop (set_ticks_pending n w)
  end.

(** [if self.switch_rw.get() == 1: self.switch_rw.toggle()]. *)
Definition force_write (a : SerialApp) : SerialApp :=
  if switch_rw a =? 1 then set_switch_rw 0 a else a.

Definition start_heartbeat (w : Window) : Window :=
  if negb (is_auto_sending (sapp w)) then _toggle_auto_send w else w.

(** The common body of the two slider callbacks: [reg] is the text put
    in the register field and [label] the label that shows the value.
    An exception raised by [int(value)] leaves the callback before it
    has changed anything. *)
Definition on_slide (reg : string) (label : Z -> SerialApp -> SerialApp)
           (value : float) (w : Window) : Window :=
  match PyConv.int_of_float value with
  | None => w
  | Some n =>
      let w := on_app (label n) w in
      let w := on_app (set_entry_reg reg) w in
      let w := on_app (set_entry_data (PyConv.str n)) w in
      let w := on_app force_write w in
      start_heartbeat w
  end.

Definition _on_servo_slide : float -> Window -> Window :=
  on_slide "00" set_slider_servo.

Definition _on_motor_slide : float -> Window -> Window :=
  on_slide "01" set_slider_motor.

Definition _emergency_stop (w : Window) : Window :=
  let w := on_app (set_slider_motor 0) w in
  let w := on_app (set_slider_servo 0) w in
  let w := on_app (set_entry_reg "01") w in
  let w := on_app (set_entry_data "0") w in
  let w := start_heartbeat w in
  notice NoticeAru w.

(** [port] is the text of the port box and [opened] tells whether
    [serial.Serial(port, 115200, timeout=0.1)] returned a port (it raises
    otherwise). *)
Definition _toggle_connection (port : string) (opened : bool) (w : Window)
  : Window :=
  if negb (is_connected (sapp w)) then
    if String.eqb port "Aucun port" then w
    else if opened then
      let w := on_app (set_ser true) w in
      let w := on_app (set_is_connected true) w in
      let w := on_app (set_rx_buffer []) w in
      set_stop_thread false w
    else notice NoticeConnexion w
  else
    let w := on_app (set_is_auto_sending false) w in
    let w := set_stop_thread true w in
    on_app (set_is_connected false) w.

(** What can happen to the window. *)
Inductive Event : Type :=
| ClickConnect (port : string) (opened : bool)
| ClickSend
| ClickHeartBeat
| ClickAru
| SlideServo (value : float)
| SlideMotor (value : float)
| TypeReg (text : string)
| TypeData (text : string)
| FlipSwitch
| TimerFires.

Definition handle (e : Event) (w : Window) : Window :=
  match e with
  | ClickConnect port opened => _toggle_connection port opened w
  | ClickSend => on_app _send_frame w
  | ClickHeartBeat => _toggle_auto_send w
  | ClickAru => _emergency_stop w
  | SlideServo value => _on_servo_slide value w
  | SlideMotor value => _on_motor_slide value w
  | TypeReg text => on_app (set_entry_reg text) w
  | TypeData text => on_app (set_entry_data text) w
  | FlipSwitch =>
      on_app (fun a => set_switch_rw (if switch_rw a =? 1 then 0 else 1) a) w
  | TimerFires => after_fires w
  end.

Definition run (events : list Event) (w : Window) : Window :=
  fold_left (fun w e => handle e w) events w.

(** What holds of the window between two events. *)
Definition heartbeat_inv (w : Window) : Prop :=
  (is_connected (sapp w) = true -> ser (sapp w) = true) /\
  (is_auto_sending (sapp w) = true ->
   is_connected (sapp w) = true /\ (1 <= ticks_pending w)%nat).

(** An event other than a click on the connection button that succeeds
    in opening a port. *)
Definition opens_no_port (e : Event) : Prop :=
  match e with
  | ClickConnect _ opened => opened = false
  | _ => True
  end.

(* ================================================================= *)
(** * Properties *)

(* ================================================================= *)
(** ** Facts about the CRC *)

Section CrcFacts.

Lemma land_255_range (x : Z) : 0 <= Z.land x 0xFF < 256.
Proof.
  change 0xFF with (Z.ones 8). rewrite Z.land_ones by lia.
  apply Z.mod_pos_bound. reflexivity.
Qed.

Lemma crc8_shift_range (c : Z) : is_byte (crc8_shift c).
Proof. unfold crc8_shift, is_byte. apply land_255_range. Qed.

Lemma crc8_byte_range (c b : Z) : is_byte (crc8_byte c b).
Proof. unfold crc8_byte. cbv [Nat.iter nat_rect]. apply crc8_shift_range. Qed.

Lemma crc8_atm_snoc (data : list Z) (b : Z) :
  crc8_atm (data ++ [b]) = crc8_byte (crc8_atm data) b.
Proof. unfold crc8_atm. now rewrite fold_left_app. Qed.

Lemma crc8_atm_range (data : list Z) : is_byte (crc8_atm data).
Proof.
  induction data as [|b data _] using rev_ind.
  - unfold is_byte; cbn; lia.
  - rewrite crc8_atm_snoc. apply crc8_byte_range.
Qed.

Lemma bit7_test (c : Z) : negb (Z.land c 0x80 =? 0) = Z.testbit c 7.
Proof.
  destruct (Z.testbit c 7) eqn:E.
  - apply negb_true_iff, Z.eqb_neq. intro H.
    assert (T : Z.testbit (Z.land c 0x80) 7 = true)
      by (rewrite Z.land_spec, E; reflexivity).
    rewrite H in T. discriminate.
  - apply negb_false_iff, Z.eqb_eq. apply Z.bits_inj'. intros n Hn.
    rewrite Z.land_spec, Z.bits_0.
    destruct (Z.eq_dec n 7) as [->|Hne].
    + rewrite E. reflexivity.
    + replace (Z.testbit 0x80 n) with false; [apply andb_false_r|].
      symmetry. change 0x80 with (2 ^ 7). apply Z.pow2_bits_false. lia.
Qed.

Lemma crc8_shift_spec (c : Z) : crc8_shift c = msb_first_step 0x07 c.
Proof.
  unfold crc8_shift, msb_first_step.
  rewrite bit7_test. change 0xFF with (Z.ones 8).
  rewrite Z.land_ones by lia. rewrite Z.shiftl_mul_pow2 by lia.
  change (2 ^ 8) with 256. change (2 ^ 1) with 2.
  rewrite (Z.mul_comm c 2). reflexivity.
Qed.

Lemma fold_crc8_spec (data : list Z) (acc : Z) :
  fold_left crc8_byte data acc = msb_first_crc 0x07 acc data.
Proof.
  revert acc. induction data as [|b data IH]; intro acc; [reflexivity|].
  cbn [fold_left msb_first_crc]. rewrite IH. cbv zeta. f_equal.
  unfold crc8_byte. cbv [Nat.iter nat_rect]. rewrite !crc8_shift_spec. reflexivity.
Qed.

(** A message followed by its CRC has CRC zero (no final XOR). *)
Lemma crc8_atm_residue (data : list Z) :
  crc8_atm (data ++ [crc8_atm data]) = 0.
Proof.
  rewrite crc8_atm_snoc. unfold crc8_byte. rewrite Z.lxor_nilpotent. reflexivity.
Qed.

Lemma land_lxor_distr (a b c : Z) :
  Z.land (Z.lxor a b) c = Z.lxor (Z.land a c) (Z.land b c).
Proof.
  apply Z.bits_inj'. intros n _.
  rewrite Z.lxor_spec, !Z.land_spec, Z.lxor_spec.
  destruct (Z.testbit a n), (Z.testbit b n), (Z.testbit c n); reflexivity.
Qed.

(** With initial value zero the CRC is linear for XOR. *)
Lemma crc8_shift_lxor (x y : Z) :
  crc8_shift (Z.lxor x y) = Z.lxor (crc8_shift x) (crc8_shift y).
Proof.
  unfold crc8_shift. rewrite !bit7_test, Z.lxor_spec, Z.shiftl_lxor.
  destruct (Z.testbit x 7), (Z.testbit y 7); cbn [xorb];
    rewrite <- land_lxor_distr; f_equal.
  - rewrite (Z.lxor_comm (Z.shiftl y 1) 7), Z.lxor_assoc,
      <- (Z.lxor_assoc 7 7), Z.lxor_nilpotent, Z.lxor_0_l. reflexivity.
  - rewrite !Z.lxor_assoc. f_equal. apply Z.lxor_comm.
  - rewrite Z.lxor_assoc. reflexivity.
Qed.

Lemma crc8_byte_lxor (c1 c2 b1 b2 : Z) :
  crc8_byte (Z.lxor c1 c2) (Z.lxor b1 b2)
  = Z.lxor (crc8_byte c1 b1) (crc8_byte c2 b2).
Proof.
  unfold crc8_byte.
  replace (Z.lxor (Z.lxor c1 c2) (Z.lxor b1 b2))
    with (Z.lxor (Z.lxor c1 b1) (Z.lxor c2 b2)).
  - cbv [Nat.iter nat_rect]. now rewrite !crc8_shift_lxor.
  - rewrite !Z.lxor_assoc. f_equal.
    rewrite <- !Z.lxor_assoc. f_equal. apply Z.lxor_comm.
Qed.

Lemma fold_crc8_lxor (d1 d2 : list Z) (c1 c2 : Z) :
  length d1 = length d2 ->
  fold_left crc8_byte (map (fun p => Z.lxor (fst p) (snd p)) (combine d1 d2))
            (Z.lxor c1 c2)
  = Z.lxor (fold_left crc8_byte d1 c1) (fold_left crc8_byte d2 c2).
Proof.
  revert d2 c1 c2. induction d1 as [|b1 d1 IH]; intros [|b2 d2] c1 c2 L;
    try discriminate; [reflexivity|].
  cbn [combine map fold_left fst snd]. rewrite crc8_byte_lxor.
  apply IH. now injection L.
Qed.

Lemma crc8_atm_lxor (d1 d2 : list Z) :
  length d1 = length d2 ->
  crc8_atm (map (fun p => Z.lxor (fst p) (snd p)) (combine d1 d2))
  = Z.lxor (crc8_atm d1) (crc8_atm d2).
Proof.
  intro L. unfold crc8_atm.
  change 0x00 with (Z.lxor 0 0) at 1. now apply fold_crc8_lxor.
Qed.

End CrcFacts.

(* ================================================================= *)
(** ** The model evaluated on small inputs *)

Example crc8_frame_0 : crc8_atm [0x01; 0x0C; 0xFE] = 99.
Proof. reflexivity. Qed.

Example binary32_one : Struct.float_at 0 [0x00; 0x00; 0x80; 0x3F] = 1%float.
Proof. reflexivity. Qed.

Example binary32_seven : Struct.float_at 0 [0x00; 0x00; 0xE0; 0x40] = 7%float.
Proof. reflexivity. Qed.

Example binary32_minus_half :
  Struct.float_at 0 [0x00; 0x00; 0x00; 0xBF] = (-0.5)%float.
Proof. reflexivity. Qed.

Example le_uint_1000 : Struct.word_at 4 [0xAA; 0x55; 0; 0; 0xE8; 0x03; 0; 0] = 1000.
Proof. reflexivity. Qed.

Example int_hex_01 : Py.int (Py.strip " 01 ") 16 = Some 1.
Proof. reflexivity. Qed.

Example int_hex_prefix : Py.int (Py.strip "0x7f") 16 = Some 127.
Proof. reflexivity. Qed.

Example int_dec_neg : Py.int (Py.strip "-500") 10 = Some (-500).
Proof. reflexivity. Qed.

Example int_dec_underscore : Py.int (Py.strip "1_000") 10 = Some 1000.
Proof. reflexivity. Qed.

Example int_dec_bad : Py.int (Py.strip "12a") 10 = None.
Proof. reflexivity. Qed.

Example int_dec_empty : Py.int (Py.strip "  ") 10 = None.
Proof. reflexivity. Qed.

Example int_dec_double_us : Py.int (Py.strip "1__0") 10 = None.
Proof. reflexivity. Qed.

(* ================================================================= *)
(** ** The decision at the head of the accumulator *)

Section HeadAction.

Lemma head_action_nil : head_action [] = Break.
Proof. reflexivity. Qed.

Lemma head_action_imu (buf packet : list Z) :
  head_action buf = DecodeImu packet ->
  (IMU_SIZE <= length buf)%nat /\ packet = firstn IMU_SIZE buf /\
  nth 0 buf 0 = 0xAA /\ nth 1 buf 0 = 0x55 /\ crc_ok packet.
Proof.
  unfold head_action, crc_ok. cbv zeta.
  destruct (nth 0 buf 0 =? 0xAA) eqn:E0.
  - destruct (length buf <? 2)%nat; [discriminate|].
    destruct (nth 1 buf 0 =? 0x55) eqn:E1; [|discriminate].
    destruct (Nat.ltb_spec (length buf) IMU_SIZE); [discriminate|].
    destruct (crc8_atm _ =? _) eqn:Ec; [|discriminate].
    intros [= <-]. repeat split; try lia; now apply Z.eqb_eq.
  - destruct (Z.land _ _ =? _); [|discriminate].
    destruct (length buf <? CMD_SIZE)%nat; [discriminate|].
    destruct (crc8_atm _ =? _); discriminate.
Qed.

Lemma head_action_cmd (buf packet : list Z) :
  head_action buf = DecodeCmd packet ->
  (CMD_SIZE <= length buf)%nat /\ packet = firstn CMD_SIZE buf /\
  Z.land (nth 0 buf 0) 0x80 = 0 /\ crc_ok packet.
Proof.
  unfold head_action, crc_ok. cbv zeta.
  destruct (nth 0 buf 0 =? 0xAA) eqn:E0.
  - destruct (length buf <? 2)%nat; [discriminate|].
    destruct (nth 1 buf 0 =? 0x55) eqn:E1; [|discriminate].
    destruct (length buf <? IMU_SIZE)%nat; [discriminate|].
    destruct (crc8_atm _ =? _); discriminate.
  - destruct (Z.land _ _ =? _) eqn:E7; [|discriminate].
    destruct (Nat.ltb_spec (length buf) CMD_SIZE); [discriminate|].
    destruct (crc8_atm _ =? _) eqn:Ec; [|discriminate].
    intros [= <-]. repeat split; try lia; now apply Z.eqb_eq.
Qed.

Lemma head_action_drop (buf : list Z) :
  head_action buf = DropByte -> (1 <= length buf)%nat.
Proof.
  destruct buf; [discriminate|]. cbn [length]. lia.
Qed.

(** A decision that is not [Break] only looked at bytes that were
    there: more bytes behind them do not change it. *)
Lemma head_action_app (buf more : list Z) :
  head_action buf <> Break ->
  head_action (buf ++ more) = head_action buf.
Proof.
  intro H.
  assert (Hlen : (1 <= length buf)%nat).
  { destruct buf; [now elim H|cbn; lia]. }
  revert H. unfold head_action. cbv zeta.
  rewrite (app_nth1 buf more 0) by lia.
  destruct (nth 0 buf 0 =? 0xAA).
  - destruct (Nat.ltb_spec (length buf) 2); [now intros []|].
    rewrite (app_nth1 buf more 0) by lia.
    replace (length (buf ++ more) <? 2)%nat with false
      by (symmetry; apply Nat.ltb_ge; rewrite length_app; lia).
    destruct (nth 1 buf 0 =? 0x55); [|reflexivity].
    destruct (Nat.ltb_spec (length buf) IMU_SIZE); [now intros []|].
    replace (length (buf ++ more) <? IMU_SIZE)%nat with false
      by (symmetry; apply Nat.ltb_ge; rewrite length_app; lia).
    rewrite firstn_app.
    replace (IMU_SIZE - length buf)%nat with 0%nat by lia.
    cbn [firstn]. rewrite app_nil_r. reflexivity.
  - destruct (Z.land _ _ =? _); [|reflexivity].
    destruct (Nat.ltb_spec (length buf) CMD_SIZE); [now intros []|].
    replace (length (buf ++ more) <? CMD_SIZE)%nat with false
      by (symmetry; apply Nat.ltb_ge; rewrite length_app; lia).
    rewrite firstn_app.
    replace (CMD_SIZE - length buf)%nat with 0%nat by lia.
    cbn [firstn]. rewrite app_nil_r. reflexivity.
Qed.

End HeadAction.

(* ================================================================= *)
(** ** The trace: fuel, equation, later bytes *)

Section ScanFacts.

Lemma scan_fuel_more (f1 f2 : nat) (buf : list Z) :
  (length buf <= f1)%nat -> (length buf <= f2)%nat ->
  scan_fuel f1 buf = scan_fuel f2 buf.
Proof.
  revert f2 buf. induction f1 as [|f1 IH]; intros f2 buf H1 H2.
  - destruct buf; [|cbn in H1; lia]. destruct f2; reflexivity.
  - destruct f2 as [|f2].
    { destruct buf; [reflexivity|cbn in H2; lia]. }
    cbn [scan_fuel]. destruct (head_action buf) eqn:E.
    + reflexivity.
    + apply head_action_imu in E. destruct E as [L _]. unfold IMU_SIZE in *.
      rewrite (IH f2) by (rewrite length_skipn; lia). reflexivity.
    + apply head_action_cmd in E. destruct E as [L _]. unfold CMD_SIZE in *.
      rewrite (IH f2) by (rewrite length_skipn; lia). reflexivity.
    + apply head_action_drop in E.
      apply IH; rewrite length_skipn; lia.
Qed.

(** The equation of the loop, free of fuel. *)
Lemma scan_eq (buf : list Z) :
  scan buf =
  match head_action buf with
  | Break => ([], buf)
  | DecodeImu packet =>
      (CallImu packet :: fst (scan (skipn IMU_SIZE buf)),
       snd (scan (skipn IMU_SIZE buf)))
  | DecodeCmd packet =>
      (CallCmd packet :: fst (scan (skipn CMD_SIZE buf)),
       snd (scan (skipn CMD_SIZE buf)))
  | DropByte => scan (skipn 1 buf)
  end.
Proof.
  unfold scan at 1. destruct buf as [|b t]; [reflexivity|].
  change (length (b :: t)) with (S (length t)).
  assert (Hlen : length (b :: t) = S (length t)) by reflexivity.
  revert Hlen. generalize (b :: t) as buf. intros buf Hlen.
  cbn [scan_fuel]. destruct (head_action buf) eqn:E.
  - reflexivity.
  - apply head_action_imu in E. destruct E as [L _]. unfold IMU_SIZE in *.
    unfold scan.
    rewrite (scan_fuel_more (length t) (length (skipn 37 buf)))
      by (rewrite ?length_skipn; lia).
    now destruct (scan_fuel _ _).
  - apply head_action_cmd in E. destruct E as [L _]. unfold CMD_SIZE in *.
    unfold scan.
    rewrite (scan_fuel_more (length t) (length (skipn 4 buf)))
      by (rewrite ?length_skipn; lia).
    now destruct (scan_fuel _ _).
  - unfold scan. apply scan_fuel_more;
      rewrite ?length_skipn; lia.
Qed.

Lemma skipn_app_le {A} (n : nat) (l more : list A) :
  (n <= length l)%nat -> skipn n (l ++ more) = skipn n l ++ more.
Proof.
  intro H. rewrite skipn_app.
  replace (n - length l)%nat with 0%nat by lia. reflexivity.
Qed.

(** Bytes that arrive later are parsed after what the loop left. *)
Lemma scan_app (buf more : list Z) :
  scan (buf ++ more) =
  (fst (scan buf) ++ fst (scan (snd (scan buf) ++ more)),
   snd (scan (snd (scan buf) ++ more))).
Proof.
  remember (length buf) as n eqn:Hn.
  revert buf Hn. induction n as [n IH] using lt_wf_ind. intros buf Hn.
  rewrite (scan_eq buf).
  destruct (head_action buf) eqn:E.
  - cbn [fst snd app]. now destruct (scan (buf ++ more)).
  - assert (E' : head_action (buf ++ more) = DecodeImu packet)
      by (rewrite head_action_app; congruence).
    rewrite (scan_eq (buf ++ more)), E'.
    apply head_action_imu in E. destruct E as [L _]. unfold IMU_SIZE in *.
    rewrite skipn_app_le by lia.
    rewrite (IH (length (skipn 37 buf))) by (rewrite ?length_skipn; lia).
    reflexivity.
  - assert (E' : head_action (buf ++ more) = DecodeCmd packet)
      by (rewrite head_action_app; congruence).
    rewrite (scan_eq (buf ++ more)), E'.
    apply head_action_cmd in E. destruct E as [L _]. unfold CMD_SIZE in *.
    rewrite skipn_app_le by lia.
    rewrite (IH (length (skipn 4 buf))) by (rewrite ?length_skipn; lia).
    reflexivity.
  - assert (E' : head_action (buf ++ more) = DropByte)
      by (rewrite head_action_app; congruence).
    rewrite (scan_eq (buf ++ more)), E'.
    apply head_action_drop in E.
    rewrite skipn_app_le by lia.
    apply (IH (length (skipn 1 buf))); rewrite ?length_skipn; lia.
Qed.

(** Every packet handed to a decoder has the right size and passed
    its CRC test. *)
Lemma scan_checked (buf : list Z) : Forall checked (fst (scan buf)).
Proof.
  remember (length buf) as n eqn:Hn.
  revert buf Hn. induction n as [n IH] using lt_wf_ind. intros buf Hn.
  rewrite scan_eq. destruct (head_action buf) eqn:E.
  - constructor.
  - apply head_action_imu in E. destruct E as (L & -> & _ & _ & C).
    cbn [fst]. constructor.
    + split; [apply firstn_length_le; exact L|exact C].
    + unfold IMU_SIZE in *.
      apply (IH (length (skipn 37 buf))); rewrite ?length_skipn; lia.
  - apply head_action_cmd in E. destruct E as (L & -> & _ & C).
    cbn [fst]. constructor.
    + split; [apply firstn_length_le; exact L|exact C].
    + unfold CMD_SIZE in *.
      apply (IH (length (skipn 4 buf))); rewrite ?length_skipn; lia.
  - apply head_action_drop in E.
    apply (IH (length (skipn 1 buf))); rewrite ?length_skipn; lia.
Qed.

End ScanFacts.

(* ================================================================= *)
(** ** The receive loop against its trace *)

Section LoopFacts.

Variable clock : nat -> float.

Lemma decode_cmd_returns (a : SerialApp) (packet : list Z) :
  _decode_and_log_cmd a packet =
  Returned (log_cmd (cmd_log_line packet) (called (CallCmd packet) a)).
Proof.
  unfold _decode_and_log_cmd, log_cmd_try, cmd_log_line.
  destruct packet as [|h [|d0 [|d1 [|c t]]]]; reflexivity.
Qed.

Lemma decode_imu_returns (a : SerialApp) (packet : list Z) :
  exists a', _decode_and_show_imu clock a packet = Returned a' /\
             rx_buffer a' = rx_buffer a /\
             decoder_calls a' = decoder_calls a ++ [CallImu packet] /\
             txt_log a' = txt_log a.
Proof.
  unfold _decode_and_show_imu, show_imu_try.
  destruct (ltb _ _); [eexists; split; [reflexivity|]; now cbn|].
  destruct (Struct.unpack packet);
    (eexists; split; [reflexivity|]; now cbn).
Qed.

Lemma rx_del_front (n : nat) (a : SerialApp) :
  rx_buffer (del_front n a) = skipn n (rx_buffer a).
Proof. reflexivity. Qed.

Lemma calls_del_front (n : nat) (a : SerialApp) :
  decoder_calls (del_front n a) = decoder_calls a.
Proof. reflexivity. Qed.

Lemma log_del_front (n : nat) (a : SerialApp) :
  txt_log (del_front n a) = txt_log a.
Proof. reflexivity. Qed.

Lemma while_rx_scan (fuel : nat) (a : SerialApp) :
  (length (rx_buffer a) <= fuel)%nat ->
  exists a', while_rx clock fuel a = Some (Returned a') /\
             follows a a' (fst (scan (rx_buffer a))) (snd (scan (rx_buffer a))).
Proof.
  revert a. induction fuel as [|fuel IH]; intros a Hlen.
  - destruct (rx_buffer a) eqn:Eb; [|cbn in Hlen; lia].
    exists a. cbn [while_rx]. rewrite Eb. cbn.
    unfold follows. rewrite Eb, !app_nil_r. auto.
  - cbn [while_rx]. destruct (Nat.ltb_spec 0 (length (rx_buffer a))) as [Hpos|Hz].
    2:{ destruct (rx_buffer a) eqn:Eb; [|cbn in Hz; lia].
        exists a. split; [reflexivity|]. cbn.
        unfold follows. rewrite Eb, !app_nil_r. auto. }
    unfold loop_body. rewrite (scan_eq (rx_buffer a)).
    destruct (head_action (rx_buffer a)) eqn:E.
    + exists a. split; [reflexivity|]. cbn [fst snd].
      unfold follows. rewrite !app_nil_r. auto.
    + destruct (decode_imu_returns a packet) as (a1 & -> & B1 & C1 & L1).
      apply head_action_imu in E. destruct E as [L _]. unfold IMU_SIZE in *.
      destruct (IH (del_front 37 a1)) as (a' & -> & B & C & Lg).
      { rewrite rx_del_front, length_skipn, B1. lia. }
      exists a'. split; [reflexivity|].
      rewrite rx_del_front, calls_del_front, log_del_front in *.
      rewrite B1 in *. cbn [fst snd flat_map call_log app]. unfold follows.
      rewrite B, C, Lg, C1, L1, <- app_assoc. auto.
    + rewrite decode_cmd_returns.
      apply head_action_cmd in E. destruct E as [L _]. unfold CMD_SIZE in *.
      destruct (IH (del_front 4 (log_cmd (cmd_log_line packet)
                                (called (CallCmd packet) a))))
        as (a' & -> & B & C & Lg).
      { rewrite rx_del_front, length_skipn. cbn [rx_buffer log_cmd called]. lia. }
      exists a'. split; [reflexivity|].
      rewrite rx_del_front, calls_del_front, log_del_front in *.
      cbn [rx_buffer decoder_calls txt_log log_cmd called] in B, C, Lg.
      cbn [fst snd flat_map call_log app]. unfold follows.
      rewrite B, C, Lg, <- !app_assoc. auto.
    + destruct (IH (del_front 1 a)) as (a' & -> & B & C & Lg).
      { rewrite rx_del_front, length_skipn. lia. }
      exists a'. split; [reflexivity|].
      rewrite rx_del_front, calls_del_front, log_del_front in *.
      unfold follows. auto.
Qed.

Lemma read_turn_feed (a : SerialApp) (data : list Z) :
  exists a', read_turn clock a data = Some (Returned a') /\
             follows a a'
               (fst (if (0 <? length data)%nat
                     then scan (rx_buffer a ++ data) else ([], rx_buffer a)))
               (snd (if (0 <? length data)%nat
                     then scan (rx_buffer a ++ data) else ([], rx_buffer a))).
Proof.
  unfold read_turn. destruct (0 <? length data)%nat.
  - destruct (while_rx_scan (length (rx_buffer a ++ data))
                (set_rx_buffer (rx_buffer a ++ data) a)) as (a' & R & F).
    { cbn. lia. }
    exists a'. split; [exact R|exact F].
  - exists a. split; [reflexivity|]. cbn. unfold follows.
    rewrite !app_nil_r. auto.
Qed.

Lemma read_loop_feed (reads : list (list Z)) (a : SerialApp) :
  exists a', _read_serial_loop clock a reads = Some (Returned a') /\
             follows a a' (fst (feed (rx_buffer a) reads))
                          (snd (feed (rx_buffer a) reads)).
Proof.
  revert a. induction reads as [|data reads IH]; intro a.
  - exists a. split; [reflexivity|]. cbn. unfold follows.
    rewrite !app_nil_r. auto.
  - cbn [_read_serial_loop feed].
    destruct (read_turn_feed a data) as (a1 & -> & B1 & C1 & L1).
    destruct (IH a1) as (a' & -> & B & C & Lg).
    exists a'. split; [reflexivity|].
    rewrite B1 in *.
    destruct (if (0 <? length data)%nat then _ else _) as [calls rest].
    cbn [fst snd] in *.
    destruct (feed rest reads) as [calls' rest']. cbn [fst snd] in *.
    unfold follows.
    rewrite B, C, Lg, C1, L1, flat_map_app, <- !app_assoc. auto.
Qed.

End LoopFacts.

Section FeedFacts.

Lemma scan_settled (buf : list Z) :
  scan (snd (scan buf)) = ([], snd (scan buf)).
Proof.
  pose proof (scan_app buf []) as H. rewrite !app_nil_r in H.
  destruct (scan buf) as [calls rest] eqn:E1. cbn [fst snd] in *.
  destruct (scan rest) as [calls' rest'] eqn:E2. cbn [fst snd] in *.
  injection H as Hc Hr. subst rest'. f_equal.
  assert (Hl : length calls = length (calls ++ calls')) by congruence.
  rewrite length_app in Hl. destruct calls'; [reflexivity|cbn in Hl; lia].
Qed.

(** Successive reads amount to one read of their concatenation. *)
Lemma feed_concat (reads : list (list Z)) (buf : list Z) :
  feed buf reads =
  if (0 <? length (concat reads))%nat
  then scan (buf ++ concat reads) else ([], buf).
Proof.
  revert buf. induction reads as [|data reads IH]; intro buf; [reflexivity|].
  cbn [feed concat]. rewrite length_app.
  destruct data as [|b data].
  - cbn [length app Nat.add]. change (0 <? 0)%nat with false.
    cbv iota. rewrite IH.
    now destruct (if (0 <? _)%nat then _ else _).
  - cbn [length Nat.add]. change (0 <? S _)%nat with true.
    destruct (scan (buf ++ b :: data)) as [calls rest] eqn:E1.
    rewrite IH. destruct (0 <? length (concat reads))%nat eqn:E2.
    + rewrite app_assoc, (scan_app (buf ++ b :: data)), E1. cbn [fst snd].
      now destruct (scan (rest ++ concat reads)).
    + destruct (concat reads); [|discriminate].
      rewrite !app_nil_r, E1. reflexivity.
Qed.

End FeedFacts.

(* ================================================================= *)
(** ** The whole state after the loop *)

Section LoopState.

Variable clock : nat -> float.

Lemma set_rx_buffer_same (a : SerialApp) : set_rx_buffer (rx_buffer a) a = a.
Proof. destruct a. reflexivity. Qed.

Lemma set_rx_buffer_twice (b b' : list Z) (a : SerialApp) :
  set_rx_buffer b (set_rx_buffer b' a) = set_rx_buffer b a.
Proof. reflexivity. Qed.

(** The decoders neither read nor write the accumulator. *)
Lemma apply_call_set_rx_buffer (b : list Z) (a : SerialApp) (c : Call) :
  apply_call clock (set_rx_buffer b a) c = set_rx_buffer b (apply_call clock a c).
Proof.
  destruct c as [p|p]; cbn [apply_call].
  - unfold _decode_and_show_imu, show_imu_try.
    cbn [time_calls last_imu_update called tick set_rx_buffer].
    destruct (ltb _ _); [reflexivity|].
    destruct (Struct.unpack p); reflexivity.
  - rewrite !decode_cmd_returns. reflexivity.
Qed.

Lemma apply_calls_set_rx_buffer (calls : list Call) (b : list Z) (a : SerialApp) :
  apply_calls clock calls (set_rx_buffer b a)
  = set_rx_buffer b (apply_calls clock calls a).
Proof.
  revert a. induction calls as [|c calls IH]; intro a; [reflexivity|].
  unfold apply_calls in *. cbn [fold_left].
  now rewrite apply_call_set_rx_buffer, IH.
Qed.

Lemma decode_imu_apply (a : SerialApp) (packet : list Z) :
  _decode_and_show_imu clock a packet
  = Returned (apply_call clock a (CallImu packet)).
Proof.
  cbn [apply_call]. unfold _decode_and_show_imu.
  destruct (show_imu_try _ _ _); reflexivity.
Qed.

Lemma decode_cmd_apply (a : SerialApp) (packet : list Z) :
  _decode_and_log_cmd a packet = Returned (apply_call clock a (CallCmd packet)).
Proof. cbn [apply_call]. rewrite decode_cmd_returns. reflexivity. Qed.

Lemma del_front_apply (n : nat) (a : SerialApp) (c : Call) :
  del_front n (apply_call clock a c)
  = set_rx_buffer (skipn n (rx_buffer a)) (apply_call clock a c).
Proof.
  unfold del_front. f_equal. f_equal.
  rewrite <- (set_rx_buffer_same a) at 1.
  rewrite apply_call_set_rx_buffer. reflexivity.
Qed.

(** The loop leaves the state that the decoders, run on the trace,
    leave, with the accumulator cut down to the bytes left. *)
Lemma while_rx_state (fuel : nat) (a : SerialApp) :
  (length (rx_buffer a) <= fuel)%nat ->
  while_rx clock fuel a
  = Some (Returned (set_rx_buffer (snd (scan (rx_buffer a)))
                                  (apply_calls clock (fst (scan (rx_buffer a))) a))).
Proof.
  revert a. induction fuel as [|fuel IH]; intros a Hlen.
  - destruct (rx_buffer a) eqn:Eb; [|cbn in Hlen; lia].
    cbn [while_rx]. rewrite Eb. cbn. rewrite <- Eb, set_rx_buffer_same. reflexivity.
  - cbn [while_rx].
    destruct (Nat.ltb_spec 0 (length (rx_buffer a))) as [Hpos|Hz].
    2:{ destruct (rx_buffer a) eqn:Eb; [|cbn in Hz; lia].
        cbn. rewrite <- Eb, set_rx_buffer_same. reflexivity. }
    unfold loop_body. rewrite (scan_eq (rx_buffer a)).
    destruct (head_action (rx_buffer a)) eqn:E.
    + cbn. rewrite set_rx_buffer_same. reflexivity.
    + rewrite decode_imu_apply, del_front_apply.
      apply head_action_imu in E. destruct E as [L _]. unfold IMU_SIZE in *.
      rewrite IH by (cbn [rx_buffer set_rx_buffer]; rewrite length_skipn; lia).
      cbn [rx_buffer set_rx_buffer fst snd].
      rewrite apply_calls_set_rx_buffer. reflexivity.
    + rewrite decode_cmd_apply, del_front_apply.
      apply head_action_cmd in E. destruct E as [L _]. unfold CMD_SIZE in *.
      rewrite IH by (cbn [rx_buffer set_rx_buffer]; rewrite length_skipn; lia).
      cbn [rx_buffer set_rx_buffer fst snd].
      rewrite apply_calls_set_rx_buffer. reflexivity.
    + unfold del_front.
      rewrite IH by (cbn [rx_buffer set_rx_buffer]; rewrite length_skipn; lia).
      cbn [rx_buffer set_rx_buffer].
      rewrite apply_calls_set_rx_buffer. reflexivity.
Qed.

Lemma read_loop_state (reads : list (list Z)) (a : SerialApp) :
  _read_serial_loop clock a reads
  = Some (Returned (set_rx_buffer (snd (feed (rx_buffer a) reads))
                                  (apply_calls clock (fst (feed (rx_buffer a) reads)) a))).
Proof.
  revert a. induction reads as [|data reads IH]; intro a.
  - cbn. rewrite set_rx_buffer_same. reflexivity.
  - cbn [_read_serial_loop feed]. unfold read_turn.
    destruct (0 <? length data)%nat.
    + rewrite while_rx_state by (cbn [rx_buffer set_rx_buffer]; lia).
      cbn [rx_buffer set_rx_buffer].
      destruct (scan (rx_buffer a ++ data)) as [calls rest]. cbn [fst snd].
      rewrite IH. cbn [rx_buffer set_rx_buffer].
      destruct (feed rest reads) as [calls' rest']. cbn [fst snd].
      rewrite !apply_calls_set_rx_buffer. unfold apply_calls.
      now rewrite fold_left_app.
    + rewrite IH. destruct (feed (rx_buffer a) reads) as [calls' rest'].
      reflexivity.
Qed.

End LoopState.

Lemma apply_calls_ext (clock1 clock2 : nat -> float) :
  (forall n, clock1 n = clock2 n) ->
  forall (calls : list Call) (a : SerialApp),
    apply_calls clock1 calls a = apply_calls clock2 calls a.
Proof.
  intros H calls. induction calls as [|c calls IH]; intro a; [reflexivity|].
  unfold apply_calls in *. cbn [fold_left].
  replace (apply_call clock1 a c) with (apply_call clock2 a c); [apply IH|].
  destruct c as [p|p]; [|reflexivity].
  cbn [apply_call]. unfold _decode_and_show_imu, show_imu_try. now rewrite H.
Qed.

(* ================================================================= *)
(** ** Rejection and resynchronisation *)

Section Resync.

Lemma rejects_drop (buf : list Z) : rejects buf -> head_action buf = DropByte.
Proof.
  unfold rejects, head_action, crc_ok. cbv zeta.
  intros [(H0 & L & H1)|[(H0 & H1 & L & C)|[(H7 & L & C)|(L & H7 & H0)]]].
  - rewrite H0, Z.eqb_refl.
    replace (length buf <? 2)%nat with false by (symmetry; apply Nat.ltb_ge; lia).
    apply Z.eqb_neq in H1. now rewrite H1.
  - rewrite H0, H1, !Z.eqb_refl.
    replace (length buf <? 2)%nat with false
      by (symmetry; apply Nat.ltb_ge; unfold IMU_SIZE in L; lia).
    replace (length buf <? IMU_SIZE)%nat with false
      by (symmetry; apply Nat.ltb_ge; lia).
    apply Z.eqb_neq in C. now rewrite C.
  - destruct (nth 0 buf 0 =? 0xAA) eqn:E0.
    { apply Z.eqb_eq in E0. rewrite E0 in H7. discriminate. }
    rewrite H7, Z.eqb_refl.
    replace (length buf <? CMD_SIZE)%nat with false
      by (symmetry; apply Nat.ltb_ge; lia).
    apply Z.eqb_neq in C. now rewrite C.
  - apply Z.eqb_neq in H0, H7. now rewrite H0, H7.
Qed.

Lemma head_action_imu_frame (f more : list Z) :
  imu_frame f -> head_action (f ++ more) = DecodeImu f.
Proof.
  intros (L & H0 & H1 & C).
  assert (E : head_action f = DecodeImu f).
  { unfold head_action. cbv zeta. rewrite H0, H1, L, !Z.eqb_refl.
    change (IMU_SIZE <? 2)%nat with false.
    rewrite Nat.ltb_irrefl, <- L, firstn_all.
    unfold crc_ok in C. now rewrite C, Z.eqb_refl. }
  rewrite head_action_app; congruence.
Qed.

Lemma head_action_cmd_frame (f more : list Z) :
  cmd_frame f -> head_action (f ++ more) = DecodeCmd f.
Proof.
  intros (L & H7 & C).
  assert (E : head_action f = DecodeCmd f).
  { unfold head_action. cbv zeta.
    destruct (nth 0 f 0 =? 0xAA) eqn:E0.
    { apply Z.eqb_eq in E0. rewrite E0 in H7. discriminate. }
    rewrite H7, L, Z.eqb_refl, Nat.ltb_irrefl, <- L, firstn_all.
    unfold crc_ok in C. now rewrite C, Z.eqb_refl. }
  rewrite head_action_app; congruence.
Qed.

Lemma scan_imu_frame (f more : list Z) :
  imu_frame f ->
  scan (f ++ more) = (CallImu f :: fst (scan more), snd (scan more)).
Proof.
  intro H. rewrite scan_eq, (head_action_imu_frame f more H).
  destruct H as (L & _). rewrite <- L, skipn_app_le, skipn_all by lia.
  reflexivity.
Qed.

Lemma scan_cmd_frame (f more : list Z) :
  cmd_frame f ->
  scan (f ++ more) = (CallCmd f :: fst (scan more), snd (scan more)).
Proof.
  intro H. rewrite scan_eq, (head_action_cmd_frame f more H).
  destruct H as (L & _). rewrite <- L, skipn_app_le, skipn_all by lia.
  reflexivity.
Qed.

(** Garbage whose every position is rejected in turn is skipped. *)
Lemma scan_skips_rejected (pre tail : list Z) :
  (forall k, (k < length pre)%nat -> rejects (skipn k (pre ++ tail))) ->
  scan (pre ++ tail) = scan tail.
Proof.
  induction pre as [|p pre IH]; intro H; [reflexivity|].
  assert (H0 : rejects ((p :: pre) ++ tail)) by (apply (H 0%nat); cbn; lia).
  rewrite scan_eq, (rejects_drop _ H0).
  cbn [skipn app]. apply IH. intros k Hk.
  apply (H (S k)). cbn [length]. lia.
Qed.

End Resync.

Section Examples.

Example scan_two_frames :
  scan [0x01; 0x0C; 0xFE; 0x63; 0x00; 0x00; 0x01; 0x07; 0x05]
  = ([CallCmd [0x01; 0x0C; 0xFE; 0x63]; CallCmd [0x00; 0x00; 0x01; 0x07]],
     [0x05]).
Proof. reflexivity. Qed.

Example scan_garbage_then_frame :
  scan [0xFF; 0xAA; 0x80; 0x00; 0x00; 0x01; 0x07]
  = ([CallCmd [0x00; 0x00; 0x01; 0x07]], []).
Proof. reflexivity. Qed.

Example scan_waits_for_imu :
  scan [0xAA; 0x55; 0x00; 0x00; 0x01] = ([], [0xAA; 0x55; 0x00; 0x00; 0x01]).
Proof. reflexivity. Qed.

End Examples.

(* ================================================================= *)
(** ** The CRC-8 routine *)

(** C9: [crc8_atm] is a total function of the byte sequence; it is the
    MSB-first CRC with polynomial 0x07, initial value 0x00, no final XOR
    and no reflection (for each byte: XOR into the accumulator, then eight
    times shift left, XOR with 0x07 when bit 7 was set, keep 8 bits); its
    result is a byte; it maps the empty sequence to 0x00, [0;0;0] to 0x00
    and [1] to 0x07. *)
Theorem crc8_atm_msb_first_poly07 :
  (forall data : list Z, crc8_atm data = crc8_spec data) /\
  (forall data : list Z, 0 <= crc8_atm data < 256) /\
  crc8_atm [] = 0x00 /\
  crc8_atm [0x00; 0x00; 0x00] = 0x00 /\
  crc8_atm [0x01] = 0x07.
Proof.
  split; [|split; [|repeat split]].
  - intro data. apply fold_crc8_spec.
  - intro data. apply crc8_atm_range.
Qed.

(* ================================================================= *)
(** ** The stream parser *)

Lemma feed_checked (reads : list (list Z)) (buf : list Z) :
  Forall checked (fst (feed buf reads)).
Proof.
  rewrite feed_concat. destruct (0 <? _)%nat; [apply scan_checked|constructor].
Qed.

Lemma concat_singletons (bytes : list Z) :
  concat (map (fun b => [b]) bytes) = bytes.
Proof.
  induction bytes as [|b bytes IH]; [reflexivity|].
  cbn [map concat app]. now rewrite IH.
Qed.

(** C1: whatever chunks are read, in whatever state the loop starts, the
    loop ends normally and every packet it handed to a decoder, a 37-byte
    telemetry packet or a 4-byte command packet, has the CRC-8 of all its
    bytes but the last equal to its last byte. *)
Theorem parser_emits_only_crc_checked_frames
        (clock : nat -> float) (a : SerialApp) (reads : list (list Z)) :
  exists (a' : SerialApp) (calls : list Call),
    _read_serial_loop clock a reads = Some (Returned a') /\
    decoder_calls a' = decoder_calls a ++ calls /\
    Forall (fun c =>
              crc8_atm (removelast (call_packet c)) = last (call_packet c) 0 /\
              length (call_packet c)
              = match c with CallImu _ => 37%nat | CallCmd _ => 4%nat end)
           calls.
Proof.
  destruct (read_loop_feed clock reads a) as (a' & R & _ & C & _).
  exists a', (fst (feed (rx_buffer a) reads)). split; [exact R|]. split; [exact C|].
  eapply Forall_impl; [|apply feed_checked].
  intros [p|p] [L K]; split; assumption.
Qed.

(** C3: from any state of the application, reading a byte sequence one
    byte per read hands the same packets to the decoders, in the same
    order, as reading it in a single read; it leaves the same accumulator
    and writes the same decoded command responses to the log, whatever
    the clock readings of the two runs.  When the two runs see the same
    clock readings they end in the same state altogether, telemetry
    display included. *)
Theorem one_byte_chunks_same_frames
        (clock1 clock2 : nat -> float) (a : SerialApp) (bytes : list Z) :
  exists a1 a2 : SerialApp,
    _read_serial_loop clock1 a (map (fun b => [b]) bytes) = Some (Returned a1) /\
    _read_serial_loop clock2 a [bytes] = Some (Returned a2) /\
    decoder_calls a1 = decoder_calls a2 /\
    rx_buffer a1 = rx_buffer a2 /\
    txt_log a1 = txt_log a2 /\
    ((forall n, clock1 n = clock2 n) -> a1 = a2).
Proof.
  destruct (read_loop_feed clock1 (map (fun b => [b]) bytes) a)
    as (a1 & R1 & B1 & C1 & L1).
  destruct (read_loop_feed clock2 [bytes] a) as (a2 & R2 & B2 & C2 & L2).
  exists a1, a2. split; [exact R1|]. split; [exact R2|].
  assert (E : feed (rx_buffer a) (map (fun b => [b]) bytes)
              = feed (rx_buffer a) [bytes]).
  { rewrite !feed_concat. cbn [concat]. rewrite app_nil_r.
    now rewrite concat_singletons. }
  rewrite read_loop_state in R1, R2. injection R1 as S1. injection R2 as S2.
  rewrite E in *.
  split; [congruence|]. split; [congruence|]. split; [congruence|].
  intro H. rewrite <- S1, <- S2. f_equal. apply apply_calls_ext, H.
Qed.

(** Any two ways of cutting the same bytes into reads agree likewise. *)
Lemma any_chunking_same_frames
      (clock1 clock2 : nat -> float) (a : SerialApp) (r1 r2 : list (list Z)) :
  concat r1 = concat r2 ->
  exists a1 a2 : SerialApp,
    _read_serial_loop clock1 a r1 = Some (Returned a1) /\
    _read_serial_loop clock2 a r2 = Some (Returned a2) /\
    decoder_calls a1 = decoder_calls a2 /\
    rx_buffer a1 = rx_buffer a2.
Proof.
  intro E.
  destruct (read_loop_feed clock1 r1 a) as (a1 & R1 & B1 & C1 & _).
  destruct (read_loop_feed clock2 r2 a) as (a2 & R2 & B2 & C2 & _).
  exists a1, a2. rewrite !feed_concat, E in *. repeat split; congruence.
Qed.

(** C4, as the code has it: when the head of the accumulator is rejected
    (0xAA not followed by 0x55; a 37-byte or 4-byte candidate whose CRC
    test fails; a first byte with bit 7 set other than 0xAA), the turn of
    the loop removes exactly one byte from the front, calls no decoder
    and goes on; the rest of the candidate stays in the accumulator, so a
    valid frame that starts after bytes which are all rejected in turn is
    the next packet the loop hands to a decoder. *)
Theorem rejection_drops_exactly_one_byte
        (clock : nat -> float) (a : SerialApp) :
  rejects (rx_buffer a) ->
  loop_body clock a = Returned (set_rx_buffer (skipn 1 (rx_buffer a)) a, true) /\
  S (length (skipn 1 (rx_buffer a))) = length (rx_buffer a) /\
  (forall (pre f more : list Z) (call : Call),
      skipn 1 (rx_buffer a) = pre ++ f ++ more ->
      (forall k, (k < length pre)%nat -> rejects (skipn k (pre ++ f ++ more))) ->
      (imu_frame f /\ call = CallImu f) \/ (cmd_frame f /\ call = CallCmd f) ->
      exists (a' : SerialApp) (later : list Call),
        while_rx clock (length (rx_buffer a)) a = Some (Returned a') /\
        decoder_calls a' = decoder_calls a ++ call :: later).
Proof.
  intro R. pose proof (rejects_drop _ R) as D.
  split; [|split].
  - unfold loop_body. rewrite D. reflexivity.
  - apply head_action_drop in D. rewrite length_skipn. lia.
  - intros pre f more call Hrest Hpre F.
    destruct (while_rx_scan clock (length (rx_buffer a)) a (le_n _))
      as (a' & W & _ & C & _).
    exists a', (fst (scan more)). split; [exact W|]. rewrite C. f_equal.
    rewrite (scan_eq (rx_buffer a)), D, Hrest.
    rewrite (scan_skips_rejected pre (f ++ more) Hpre).
    destruct F as [[F ->]|[F ->]];
      [rewrite (scan_imu_frame f more F)|rewrite (scan_cmd_frame f more F)];
      reflexivity.
Qed.

Lemma rejection_drops_exactly_one_byte_witness :
  rejects [0xFF; 0x00; 0x00; 0x01; 0x07] /\
  loop_body clock_still (set_rx_buffer [0xFF; 0x00; 0x00; 0x01; 0x07] connected)
  = Returned (set_rx_buffer [0x00; 0x00; 0x01; 0x07] connected, true).
Proof.
  assert (R : rejects (rx_buffer (set_rx_buffer [0xFF; 0x00; 0x00; 0x01; 0x07]
                                                connected))).
  { right; right; right. cbn. repeat split; [lia|discriminate|discriminate]. }
  split; [exact R|].
  exact (proj1 (rejection_drops_exactly_one_byte clock_still _ R)).
Defined.

Lemma feed_single (buf data : list Z) :
  feed buf [data]
  = if (0 <? length data)%nat then scan (buf ++ data) else ([], buf).
Proof. rewrite feed_concat. cbn [concat]. now rewrite app_nil_r. Qed.

(** C4, as the claim words it, fails: in [0x01;0x00;0x00;0x01;0x07;0x00] the
    4-byte candidate at the head fails its CRC test and is rejected; the
    valid frame [0x00;0x01;0x07;0x00] starts at its third byte, yet after
    the one-byte drop the candidate [0x00;0x00;0x01;0x07] passes its CRC
    test and takes three of that frame's bytes with it.  Whatever bytes
    follow, the loop goes on from the sixth byte: the frame inside the
    rejected bytes is passed over. *)
Lemma frame_inside_rejected_bytes_lost :
  rejects [0x01; 0x00; 0x00; 0x01; 0x07; 0x00] /\
  cmd_frame [0x00; 0x01; 0x07; 0x00] /\
  firstn 4 (skipn 2 [0x01; 0x00; 0x00; 0x01; 0x07; 0x00])
  = [0x00; 0x01; 0x07; 0x00] /\
  (exists a' : SerialApp,
      _read_serial_loop clock_still connected
                        [[0x01; 0x00; 0x00; 0x01; 0x07; 0x00]]
      = Some (Returned a') /\
      decoder_calls a' = [CallCmd [0x00; 0x00; 0x01; 0x07]] /\
      rx_buffer a' = [0x00]) /\
  (forall more : list Z,
      exists a1 a2 : SerialApp,
        _read_serial_loop clock_still connected
                          [[0x01; 0x00; 0x00; 0x01; 0x07; 0x00] ++ more]
        = Some (Returned a1) /\
        _read_serial_loop clock_still connected [0x00 :: more]
        = Some (Returned a2) /\
        decoder_calls a1 = CallCmd [0x00; 0x00; 0x01; 0x07] :: decoder_calls a2).
Proof.
  assert (E : scan [0x01; 0x00; 0x00; 0x01; 0x07; 0x00]
              = ([CallCmd [0x00; 0x00; 0x01; 0x07]], [0x00]))
    by (vm_compute; reflexivity).
  split; [|split; [|split; [|split]]].
  - right; right; left. unfold CMD_SIZE, crc_ok.
    split; [reflexivity|]. split; [cbn [length]; lia|].
    vm_compute. discriminate.
  - unfold cmd_frame, crc_ok. repeat split.
  - reflexivity.
  - destruct (read_loop_feed clock_still [[0x01; 0x00; 0x00; 0x01; 0x07; 0x00]]
                             connected) as (a' & R & B & C & _).
    exists a'. split; [exact R|].
    rewrite feed_single in B, C. cbn [length Nat.ltb Nat.leb rx_buffer connected app] in B, C.
    rewrite E in B, C. split; [exact C|exact B].
  - intro more.
    destruct (read_loop_feed clock_still
                [[0x01; 0x00; 0x00; 0x01; 0x07; 0x00] ++ more] connected)
      as (a1 & R1 & _ & C1 & _).
    destruct (read_loop_feed clock_still [0x00 :: more] connected)
      as (a2 & R2 & _ & C2 & _).
    exists a1, a2. split; [exact R1|]. split; [exact R2|].
    rewrite feed_single in C1, C2.
    cbn [length Nat.ltb Nat.leb rx_buffer connected app decoder_calls] in C1, C2.
    rewrite C2, C1.
    change (0x01 :: 0x00 :: 0x00 :: 0x01 :: 0x07 :: 0x00 :: more)
      with ([0x01; 0x00; 0x00; 0x01; 0x07; 0x00] ++ more).
    rewrite scan_app, E. reflexivity.
Qed.

(* ================================================================= *)
(** ** A write request fed back to the parser *)

(** C5, as the claim words it, fails: the four bytes that [_send_frame]
    writes for register 0x01, WRITE, value -500 are [0x01;0x0C;0xFE;0x63];
    read in one chunk by a freshly connected application they are handed to the
    command decoder, which logs register 0x01 and value -500. *)
Lemma write_request_read_back_is_decoded :
  ser_written (_send_frame write_motor_minus_500) = [[0x01; 0x0C; 0xFE; 0x63]] /\
  exists a' : SerialApp,
    _read_serial_loop (fun _ => 0%float) connected [[0x01; 0x0C; 0xFE; 0x63]]
    = Some (Returned a') /\
    decoder_calls a' = [CallCmd [0x01; 0x0C; 0xFE; 0x63]] /\
    txt_log a' = [LogRx 0x01 0x01 0x0C 0xFE 0x63 (-500)] /\
    rx_buffer a' = [].
Proof.
  split; [vm_compute; reflexivity|].
  exists (mkApp true true false [] 0%float "" 0 "" (Some 0) (Some 0)
                [LogRx 0x01 0x01 0x0C 0xFE 0x63 (-500)] None [] 0
                [CallCmd [0x01; 0x0C; 0xFE; 0x63]]).
  split; [vm_compute; reflexivity|]. repeat split.
Qed.

(** Every write request leaves the encoder with bit 7 of its header clear
    and a CRC that matches. *)
Lemma write_request_is_cmd_frame (addr data_val : Z) (frame : list Z) :
  frame_bytes (Z.land addr 0x7F) false data_val = Some frame -> cmd_frame frame.
Proof.
  unfold frame_bytes, Py.bytearray. cbv beta iota zeta.
  destruct (forallb _ _); [|discriminate]. intros [= <-].
  split; [reflexivity|split].
  - cbn [nth app]. rewrite <- Z.land_assoc.
    change (Z.land 0x7F 0x80) with 0. apply Z.land_0_r.
  - unfold crc_ok. cbn [app removelast last]. reflexivity.
Qed.

(** C5, as the code has it: the four bytes encoded for register 0x01,
    WRITE, value -500, read in one chunk with an empty accumulator, are
    handed to the command decoder as one command-response frame, logged
    with register 0x01 and value -500; nothing is left in the
    accumulator.  The parser has no means to tell a write request from a
    response. *)
Theorem write_request_parsed_as_response
        (clock : nat -> float) (a : SerialApp) :
  frame_bytes 0x01 false (-500) = Some [0x01; 0x0C; 0xFE; 0x63] /\
  exists a' : SerialApp,
    _read_serial_loop clock (set_rx_buffer [] a) [[0x01; 0x0C; 0xFE; 0x63]]
    = Some (Returned a') /\
    decoder_calls a' = decoder_calls a ++ [CallCmd [0x01; 0x0C; 0xFE; 0x63]] /\
    txt_log a' = txt_log a ++ [LogRx 0x01 0x01 0x0C 0xFE 0x63 (-500)] /\
    rx_buffer a' = [].
Proof.
  split; [vm_compute; reflexivity|].
  destruct (read_loop_feed clock [[0x01; 0x0C; 0xFE; 0x63]] (set_rx_buffer [] a))
    as (a' & R & B & C & L).
  exists a'. split; [exact R|].
  assert (E : feed (rx_buffer (set_rx_buffer [] a)) [[0x01; 0x0C; 0xFE; 0x63]]
              = ([CallCmd [0x01; 0x0C; 0xFE; 0x63]], [])).
  { cbn [rx_buffer set_rx_buffer]. vm_compute. reflexivity. }
  rewrite E in *. repeat split; assumption.
Qed.

(* ================================================================= *)
(** ** The command-response decoder *)

(** The two data bytes of a write request hold the low 16 bits of the
    value, and the decoder's sign correction gives the value back when it
    is a signed 16-bit number. *)
Lemma lor_bytes_low16 (v : Z) :
  Z.lor (Z.land v 0xFF) (Z.shiftl (Z.land (Z.shiftr v 8) 0xFF) 8)
  = Z.land v 0xFFFF.
Proof.
  apply Z.bits_inj'. intros n Hn.
  rewrite Z.lor_spec, !Z.land_spec.
  change 0xFF with (Z.ones 8). change 0xFFFF with (Z.ones 16).
  destruct (Z.ltb_spec n 8).
  - rewrite Z.shiftl_spec_low by lia. rewrite !Z.ones_spec_low by lia.
    now rewrite orb_false_r, andb_true_r.
  - rewrite Z.shiftl_spec by lia. rewrite Z.land_spec, Z.shiftr_spec by lia.
    replace (n - 8 + 8) with n by lia.
    rewrite (Z.ones_spec_high 8 n) by lia. rewrite andb_false_r, orb_false_l.
    destruct (Z.ltb_spec n 16).
    + rewrite !Z.ones_spec_low by lia. reflexivity.
    + rewrite !Z.ones_spec_high by lia. reflexivity.
Qed.

Lemma signed16_round_trip (header crc v : Z) :
  -32768 <= v < 32768 ->
  cmd_log_line [header; Z.land v 0xFF; Z.land (Z.shiftr v 8) 0xFF; crc]
  = LogRx (Z.land header 0x7F) header
          (Z.land v 0xFF) (Z.land (Z.shiftr v 8) 0xFF) crc v.
Proof.
  intro R. unfold cmd_log_line. cbv zeta. rewrite lor_bytes_low16.
  change 0xFFFF with (Z.ones 16). rewrite Z.land_ones by lia.
  change (2 ^ 16) with 65536. f_equal.
  destruct (Z.lt_ge_cases v 0) as [N|P].
  - assert (E : v mod 65536 = v + 65536)
      by (symmetry; apply (Z.mod_unique v 65536 (-1)); lia).
    rewrite E. destruct (Z.ltb_spec 32767 (v + 65536)); lia.
  - rewrite Z.mod_small by lia. destruct (Z.ltb_spec 32767 v); lia.
Qed.

(** C6: for every 4-byte packet [header; d0; d1; crc] the decoder logs
    register [header & 0x7F] and the value [d0 | (d1 << 8)], less 65536
    when it is 32768 or more; the data bytes of any signed 16-bit value
    decode to that value; the frame with header 0x01, data bytes
    0x0C 0xFE (the 16-bit pattern of -500) and its CRC passes the
    parser's test and decodes to -500. *)
Theorem cmd_decoder_register_and_signed_value :
  (forall (a : SerialApp) (header d0 d1 crc : Z),
      _decode_and_log_cmd a [header; d0; d1; crc]
      = Returned
          (log_cmd
             (LogRx (Z.land header 0x7F) header d0 d1 crc
                    (if 32768 <=? Z.lor d0 (Z.shiftl d1 8)
                     then Z.lor d0 (Z.shiftl d1 8) - 65536
                     else Z.lor d0 (Z.shiftl d1 8)))
             (called (CallCmd [header; d0; d1; crc]) a))) /\
  (forall (a : SerialApp) (header crc v : Z),
      -32768 <= v < 32768 ->
      _decode_and_log_cmd
        a [header; Z.land v 0xFF; Z.land (Z.shiftr v 8) 0xFF; crc]
      = Returned
          (log_cmd
             (LogRx (Z.land header 0x7F) header
                    (Z.land v 0xFF) (Z.land (Z.shiftr v 8) 0xFF) crc v)
             (called (CallCmd [header; Z.land v 0xFF;
                               Z.land (Z.shiftr v 8) 0xFF; crc]) a))) /\
  cmd_frame [0x01; 0x0C; 0xFE; crc8_atm [0x01; 0x0C; 0xFE]] /\
  Z.land (-500) 0xFF = 0x0C /\ Z.land (Z.shiftr (-500) 8) 0xFF = 0xFE /\
  cmd_log_line [0x01; 0x0C; 0xFE; crc8_atm [0x01; 0x0C; 0xFE]]
  = LogRx 0x01 0x01 0x0C 0xFE 0x63 (-500).
Proof.
  split; [|split; [|split; [|split; [|split]]]];
    [| |unfold cmd_frame, crc_ok; repeat split; vm_compute; reflexivity
     |reflexivity|reflexivity|vm_compute; reflexivity].
  - intros a header d0 d1 crc. rewrite decode_cmd_returns.
    unfold cmd_log_line. cbv zeta.
    replace (32768 <=? Z.lor d0 (Z.shiftl d1 8))
      with (32767 <? Z.lor d0 (Z.shiftl d1 8)); [reflexivity|].
    destruct (Z.ltb_spec 32767 (Z.lor d0 (Z.shiftl d1 8)));
      destruct (Z.leb_spec 32768 (Z.lor d0 (Z.shiftl d1 8)));
      (reflexivity || lia).
  - intros a header crc v R.
    rewrite decode_cmd_returns, (signed16_round_trip header crc v R).
    reflexivity.
Qed.

(* ================================================================= *)
(** ** The command encoder *)

Section Encoder.

Lemma lor_flag_addr_byte (is_read : bool) (n : Z) :
  is_byte (Z.lor (if is_read then 0x80 else 0x00) (Z.land n 0x7F)).
Proof.
  assert (R : 0 <= Z.land n 0x7F < 128).
  { change 0x7F with (Z.ones 7). rewrite Z.land_ones by lia.
    apply Z.mod_pos_bound. reflexivity. }
  unfold is_byte. destruct is_read.
  - assert (D : Z.land 0x80 (Z.land n 0x7F) = 0).
    { rewrite (Z.land_comm n), Z.land_assoc. reflexivity. }
    rewrite <- Z.lxor_lor by exact D.
    rewrite <- Z.add_nocarry_lxor by exact D. lia.
  - rewrite Z.lor_0_l. lia.
Qed.

Lemma is_byte_test (b : Z) : is_byte b -> (0 <=? b) && (b <? 256) = true.
Proof.
  intros [H1 H2]. apply andb_true_iff. split; [apply Z.leb_le|apply Z.ltb_lt]; lia.
Qed.

(** The encoder never refuses its arguments. *)
Lemma frame_bytes_total (n : Z) (is_read : bool) (data_val : Z) :
  let header := Z.lor (if is_read then 0x80 else 0x00) (Z.land n 0x7F) in
  let byte0 := Z.land data_val 0xFF in
  let byte1 := if is_read then 0x00 else Z.land (Z.shiftr data_val 8) 0xFF in
  frame_bytes (Z.land n 0x7F) is_read data_val
  = Some [header; byte0; byte1; crc8_atm [header; byte0; byte1]] /\
  Forall is_byte [header; byte0; byte1; crc8_atm [header; byte0; byte1]].
Proof.
  intros header byte0 byte1.
  assert (F : Forall is_byte [header; byte0; byte1;
                              crc8_atm [header; byte0; byte1]]).
  { constructor; [apply lor_flag_addr_byte|].
    constructor; [apply land_255_range|].
    constructor;
      [subst byte1; destruct is_read;
       [unfold is_byte; lia|apply land_255_range]|].
    constructor; [apply crc8_atm_range|constructor]. }
  split; [|exact F].
  unfold frame_bytes.
  replace (if is_read
           then (Z.land data_val 0xFF, 0)
           else (Z.land data_val 0xFF, Z.land (Z.shiftr data_val 8) 0xFF))
    with (byte0, byte1) by (subst byte0 byte1; now destruct is_read).
  cbv beta iota zeta. fold header. unfold Py.bytearray.
  replace (forallb _ _) with true; [reflexivity|].
  symmetry. apply forallb_forall. intros b Hb.
  rewrite Forall_forall in F. apply is_byte_test, F, Hb.
Qed.

End Encoder.

Section SendFrame.

Lemma sync_sliders_keeps (addr : Z) (is_read : bool) (v : Z) (a : SerialApp) :
  ser_written (sync_sliders addr is_read v a) = ser_written a /\
  txt_log (sync_sliders addr is_read v a) = txt_log a /\
  is_auto_sending (sync_sliders addr is_read v a) = is_auto_sending a.
Proof.
  unfold sync_sliders. destruct is_read; cbn [negb]; [auto|].
  destruct (addr =? 0x00); [auto|]. destruct (addr =? 0x01); auto.
Qed.

(** What [_send_frame] does once it is connected and both fields are
    read as integers. *)
Lemma send_frame_connected (a : SerialApp) (register value : Z) :
  is_connected a = true -> ser a = true ->
  Py.int (Py.strip (entry_reg a)) 16 = Some register ->
  int_or_zero (Py.strip (entry_data a)) = Some value ->
  let is_read := switch_rw a =? 1 in
  let header := Z.lor (if is_read then 0x80 else 0x00) (Z.land register 0x7F) in
  let byte0 := Z.land value 0xFF in
  let byte1 := if is_read then 0x00 else Z.land (Z.shiftr value 8) 0xFF in
  let frame := [header; byte0; byte1; crc8_atm [header; byte0; byte1]] in
  ser_written (_send_frame a) = ser_written a ++ [frame] /\
  txt_log (_send_frame a)
  = txt_log a ++ (if is_auto_sending a then []
                  else [LogTx is_read (Z.land register 0x7F) frame]).
Proof.
  intros Hc Hs Hr Hv. cbv zeta.
  unfold _send_frame. rewrite Hc, Hs, Hr, Hv. cbn [negb orb]. cbv zeta.
  destruct (frame_bytes_total register (switch_rw a =? 1) value) as [E _].
  cbv zeta in E. rewrite E.
  destruct (sync_sliders_keeps (Z.land register 0x7F) (switch_rw a =? 1) value a)
    as (W & L & A).
  set (a1 := sync_sliders (Z.land register 0x7F) (switch_rw a =? 1) value a) in *.
  set (frame := [_; _; _; _]).
  change (is_auto_sending (ser_write frame a1)) with (is_auto_sending a1).
  rewrite A. destruct (is_auto_sending a); cbn [negb].
  - cbn [ser_written txt_log ser_write]. rewrite W, L, app_nil_r. auto.
  - cbn [ser_written txt_log ser_write log_cmd]. rewrite W, L. auto.
Qed.

End SendFrame.

(** C7: once the register and data fields are read as the integers
    [register] and [value], [_send_frame] writes exactly the four bytes
    [header; byte0; byte1; crc] with header = (0x80 if READ else 0x00) |
    (register & 0x7F), byte0 = value & 0xFF, byte1 = 0x00 in READ mode and
    (value >> 8) & 0xFF in WRITE mode, crc = crc8 of the first three; the
    four are bytes whatever the integers are, so the frame is always
    built and no error is logged. *)
Theorem send_frame_writes_encoded_frame
        (a : SerialApp) (register value : Z) :
  is_connected a = true -> ser a = true ->
  Py.int (Py.strip (entry_reg a)) 16 = Some register ->
  int_or_zero (Py.strip (entry_data a)) = Some value ->
  let is_read := switch_rw a =? 1 in
  let header := Z.lor (if is_read then 0x80 else 0x00) (Z.land register 0x7F) in
  let byte0 := Z.land value 0xFF in
  let byte1 := if is_read then 0x00 else Z.land (Z.shiftr value 8) 0xFF in
  let crc := crc8_atm [header; byte0; byte1] in
  frame_bytes (Z.land register 0x7F) is_read value
  = Some [header; byte0; byte1; crc] /\
  Forall is_byte [header; byte0; byte1; crc] /\
  ser_written (_send_frame a) = ser_written a ++ [[header; byte0; byte1; crc]] /\
  txt_log (_send_frame a)
  = txt_log a ++ (if is_auto_sending a then []
                  else [LogTx is_read (Z.land register 0x7F)
                              [header; byte0; byte1; crc]]).
Proof.
  intros Hc Hs Hr Hv is_read header byte0 byte1 crc.
  destruct (frame_bytes_total register is_read value) as [E F].
  destruct (send_frame_connected a register value Hc Hs Hr Hv) as [W L].
  repeat split; assumption.
Qed.

Lemma send_frame_writes_encoded_frame_witness :
  ser_written (_send_frame write_out_of_range) = [[0x7F; 0x70; 0x11; 0xF5]].
Proof.
  exact (proj1 (proj2 (proj2
           (send_frame_writes_encoded_frame write_out_of_range 0x1FF 70000
              eq_refl eq_refl eq_refl eq_refl)))).
Defined.

(** C10: with the data field empty (nothing but white space), in either
    mode and for any register, [_send_frame] writes
    [header; 0x00; 0x00; crc8 [header; 0x00; 0x00]], which is also what it
    writes when the data field holds the text 0. *)
Theorem empty_data_field_encodes_zero (a : SerialApp) (register : Z) :
  is_connected a = true -> ser a = true ->
  Py.int (Py.strip (entry_reg a)) 16 = Some register ->
  Py.strip (entry_data a) = [] ->
  let header := Z.lor (if switch_rw a =? 1 then 0x80 else 0x00)
                      (Z.land register 0x7F) in
  let frame := [header; 0x00; 0x00; crc8_atm [header; 0x00; 0x00]] in
  ser_written (_send_frame a) = ser_written a ++ [frame] /\
  ser_written (_send_frame (set_entry_data "0" a)) = ser_written a ++ [frame].
Proof.
  intros Hc Hs Hr He header frame.
  assert (Z0 : Z.land 0 0xFF = 0) by reflexivity.
  assert (Z1 : (if switch_rw a =? 1 then 0x00
                else Z.land (Z.shiftr 0 8) 0xFF) = 0)
    by (destruct (switch_rw a =? 1); reflexivity).
  split.
  - destruct (send_frame_connected a register 0 Hc Hs Hr) as [W _].
    { rewrite He. reflexivity. }
    rewrite W, Z1. reflexivity.
  - destruct (send_frame_connected (set_entry_data "0" a) register 0 Hc Hs Hr)
      as [W _].
    { reflexivity. }
    cbn [switch_rw set_entry_data] in W. rewrite W, Z1. reflexivity.
Qed.

Lemma empty_data_field_encodes_zero_witness :
  ser_written (_send_frame read_reg_2a_no_data) = [[0xAA; 0x00; 0x00; 0xCF]] /\
  ser_written (_send_frame (set_entry_data "0" read_reg_2a_no_data))
  = [[0xAA; 0x00; 0x00; 0xCF]].
Proof.
  exact (empty_data_field_encodes_zero read_reg_2a_no_data 0x2A
           eq_refl eq_refl eq_refl eq_refl).
Defined.

(* ================================================================= *)
(** ** The telemetry decoder *)

Example unpack_telemetry_1000 :
  option_map imu_text (Struct.unpack telemetry_1000) = Some (shown 1000).
Proof. vm_compute. reflexivity. Qed.

Example unpack_telemetry_1010 :
  option_map imu_text (Struct.unpack telemetry_1010) = Some (shown 1010).
Proof. vm_compute. reflexivity. Qed.

Section ImuDecoder.

Lemma unpack_length (packet : list Z) :
  Struct.unpack packet = None <-> length packet <> 37%nat.
Proof.
  unfold Struct.unpack, Struct.calcsize.
  destruct (Nat.eqb_spec (length packet) 37); split; intro H;
    (discriminate || congruence || reflexivity || (exfalso; auto)).
Qed.

Lemma unpack_some (packet : list Z) :
  length packet = 37%nat -> exists u, Struct.unpack packet = Some u.
Proof.
  intro L. destruct (Struct.unpack packet) as [u|] eqn:E; [now exists u|].
  apply unpack_length in E. contradiction.
Qed.

End ImuDecoder.

(** C2, as the code has it: a 37-byte telemetry frame that passes the CRC
    test at the head of the accumulator is handed to the telemetry
    decoder, whenever it arrives; the decoder unpacks and shows it only
    when the clock reading, less [last_imu_update], is not below 0.1
    second, and then keeps that reading; otherwise it returns at once: the
    frame is left undecoded and the display and [last_imu_update] stay as
    they were. *)
Theorem validated_telemetry_shown_unless_throttled
        (clock : nat -> float) (a : SerialApp) (packet more : list Z) :
  imu_frame packet ->
  head_action (packet ++ more) = DecodeImu packet /\
  exists a' : SerialApp,
    _decode_and_show_imu clock a packet = Returned a' /\
    decoder_calls a' = decoder_calls a ++ [CallImu packet] /\
    if ltb (sub (clock (time_calls a)) (last_imu_update a)) refresh_period
    then txt_imu a' = txt_imu a /\ last_imu_update a' = last_imu_update a
    else (exists u, Struct.unpack packet = Some u /\
                    txt_imu a' = Some (imu_text u)) /\
         last_imu_update a' = clock (time_calls a).
Proof.
  intro F. split; [apply head_action_imu_frame; exact F|].
  destruct F as (L & _). destruct (unpack_some packet L) as [u U].
  unfold _decode_and_show_imu, show_imu_try.
  cbn [time_calls last_imu_update called tick].
  destruct (ltb _ _).
  - eexists. split; [reflexivity|]. cbn. auto.
  - rewrite U. eexists. split; [reflexivity|]. cbn.
    split; [reflexivity|]. split; [exists u; auto|reflexivity].
Qed.

Lemma validated_telemetry_shown_unless_throttled_witness :
  imu_frame telemetry_1000 /\
  head_action (telemetry_1000 ++ telemetry_1010) = DecodeImu telemetry_1000.
Proof.
  assert (F : imu_frame telemetry_1000).
  { unfold imu_frame, crc_ok. repeat split; vm_compute; reflexivity. }
  split; [exact F|].
  exact (proj1 (validated_telemetry_shown_unless_throttled
                  clock_still connected telemetry_1000 telemetry_1010 F)).
Defined.

(** C2, as the claim words it, fails: two valid telemetry frames read in
    one chunk, the clock advancing by 31.25 ms between the two decoder
    calls.  Both pass the CRC test and both are handed to the decoder,
    but the second is never unpacked: the display still shows the first
    (time stamp 1000, not 1010). *)
Lemma second_telemetry_frame_dropped :
  imu_frame telemetry_1000 /\ imu_frame telemetry_1010 /\
  exists a' : SerialApp,
    _read_serial_loop clock_31ms connected [telemetry_1000 ++ telemetry_1010]
    = Some (Returned a') /\
    decoder_calls a' = [CallImu telemetry_1000; CallImu telemetry_1010] /\
    rx_buffer a' = [] /\
    txt_imu a' = Some (shown 1000) /\
    txt_imu a' <> option_map imu_text (Struct.unpack telemetry_1010) /\
    last_imu_update a' = clock_31ms 0.
Proof.
  split; [|split].
  - unfold imu_frame, crc_ok. repeat split; vm_compute; reflexivity.
  - unfold imu_frame, crc_ok. repeat split; vm_compute; reflexivity.
  - exists (mkApp true true false [] (clock_31ms 0) "" 0 "" (Some 0) (Some 0)
                  [] (Some (shown 1000)) [] 2
                  [CallImu telemetry_1000; CallImu telemetry_1010]).
    split; [vm_compute; reflexivity|].
    split; [reflexivity|]. split; [reflexivity|]. split; [reflexivity|].
    split; [|reflexivity].
    rewrite unpack_telemetry_1010. cbn [txt_imu]. intros [=].
Qed.

(** C8, as the code has it: inside the decoder, unpacking fails with
    [struct.error] when, and only when, the call got past the 0.1 second
    test and the packet is not 37 bytes long; on every 37-byte packet the
    decoder succeeds, and when the call got past the test the unpacked
    telemetry is shown. *)
Theorem telemetry_unpack_fails_on_wrong_length_only
        (clock : nat -> float) (a : SerialApp) (packet : list Z) :
  let throttled :=
    ltb (sub (clock (time_calls a)) (last_imu_update a)) refresh_period in
  (Struct.unpack packet = None <-> length packet <> 37%nat) /\
  ((exists a0, show_imu_try clock a packet = Raised StructError a0) <->
   throttled = false /\ length packet <> 37%nat) /\
  (length packet = 37%nat ->
   exists u a', Struct.unpack packet = Some u /\
                show_imu_try clock a packet = Returned a' /\
                (throttled = false -> txt_imu a' = Some (imu_text u))).
Proof.
  cbv zeta. split; [apply unpack_length|]. unfold show_imu_try.
  cbn [time_calls last_imu_update tick].
  destruct (ltb _ _) eqn:T; split.
  - split; [intros [a0 [=]]|intros [[=] _]].
  - intro L. destruct (unpack_some packet L) as [u U].
    exists u. eexists. split; [exact U|]. split; [reflexivity|]. intros [=].
  - destruct (Struct.unpack packet) as [u|] eqn:U.
    + split; [intros [a0 [=]]|].
      intros [_ N]. apply unpack_length in N. congruence.
    + split; [|intros _; eexists; reflexivity].
      intros _. split; [reflexivity|]. apply unpack_length. exact U.
  - intro L. destruct (unpack_some packet L) as [u U]. rewrite U.
    exists u. eexists. split; [reflexivity|]. split; [reflexivity|].
    intros _. reflexivity.
Qed.

(** C8, as the claim words it, fails: a 2-byte packet handed to the
    decoder less than 0.1 second after the last update raises nothing at
    all, the decoder returning before it unpacks; and outside that window
    the decoder still returns normally, with nothing shown and nothing
    logged. *)
Lemma wrong_length_telemetry_raises_nothing :
  length [0xAA; 0x55] <> 37%nat /\
  (exists a',
      show_imu_try clock_still (set_last_imu_update (clock_still 0) connected)
                   [0xAA; 0x55] = Returned a' /\
      txt_log a' = [] /\ txt_imu a' = None) /\
  (exists a',
      _decode_and_show_imu clock_still connected [0xAA; 0x55] = Returned a' /\
      txt_log a' = [] /\ txt_imu a' = None).
Proof.
  split; [cbn; lia|]. split.
  - eexists. split; [vm_compute; reflexivity|]. split; reflexivity.
  - eexists. split; [vm_compute; reflexivity|]. split; reflexivity.
Qed.

(* ================================================================= *)
(** * Further properties of the receive loop *)

Section Carving.

Lemma head_action_break (buf : list Z) : head_action buf = Break -> waiting buf.
Proof.
  intro H. unfold head_action in H. cbv zeta in H. unfold waiting.
  destruct buf as [|b0 buf]; [now left|]. right.
  destruct (nth 0 (b0 :: buf) 0 =? 0xAA) eqn:E0.
  - apply Z.eqb_eq in E0.
    destruct (Nat.ltb_spec (length (b0 :: buf)) 2) as [L2|L2].
    + left. cbn [length] in *. split; [exact E0|lia].
    + destruct (nth 1 (b0 :: buf) 0 =? 0x55) eqn:E1; [|discriminate].
      apply Z.eqb_eq in E1.
      destruct (Nat.ltb_spec (length (b0 :: buf)) IMU_SIZE) as [L|L].
      * right; left. repeat split; assumption.
      * destruct (crc8_atm _ =? _); discriminate.
  - destruct (Z.land (nth 0 (b0 :: buf) 0) 0x80 =? 0x00) eqn:E7; [|discriminate].
    apply Z.eqb_eq in E7.
    destruct (Nat.ltb_spec (length (b0 :: buf)) CMD_SIZE) as [L|L].
    + right; right. split; [exact E7|]. cbn [length] in *. lia.
    + destruct (crc8_atm _ =? _); discriminate.
Qed.

Lemma waiting_short (buf : list Z) : waiting buf -> (length buf < IMU_SIZE)%nat.
Proof.
  unfold waiting, IMU_SIZE, CMD_SIZE.
  intros [->|[[_ L]|[(_ & _ & L)|[_ L]]]]; cbn [length]; lia.
Qed.

Lemma scan_rest_break (buf : list Z) : head_action (snd (scan buf)) = Break.
Proof.
  remember (length buf) as n eqn:Hn.
  revert buf Hn. induction n as [n IH] using lt_wf_ind. intros buf Hn.
  rewrite scan_eq. destruct (head_action buf) eqn:E.
  - exact E.
  - apply head_action_imu in E. destruct E as [L _]. unfold IMU_SIZE in *.
    cbn [snd]. apply (IH (length (skipn 37 buf))); rewrite ?length_skipn; lia.
  - apply head_action_cmd in E. destruct E as [L _]. unfold CMD_SIZE in *.
    cbn [snd]. apply (IH (length (skipn 4 buf))); rewrite ?length_skipn; lia.
  - apply head_action_drop in E.
    apply (IH (length (skipn 1 buf))); rewrite ?length_skipn; lia.
Qed.

Lemma scan_carved (buf : list Z) : carved buf (fst (scan buf)) (snd (scan buf)).
Proof.
  remember (length buf) as n eqn:Hn.
  revert buf Hn. induction n as [n IH] using lt_wf_ind. intros buf Hn.
  rewrite scan_eq. destruct (head_action buf) eqn:E.
  - constructor.
  - apply head_action_imu in E. destruct E as (L & -> & H0 & H1 & C).
    cbn [fst snd]. rewrite <- (firstn_skipn IMU_SIZE buf) at 1.
    assert (Lp : length (firstn IMU_SIZE buf) = IMU_SIZE)
      by (apply firstn_length_le; exact L).
    apply carved_imu.
    + unfold IMU_SIZE in *.
      repeat split; [exact Lp| | |exact C].
      * destruct buf as [|b0 buf]; [cbn in L; lia|exact H0].
      * destruct buf as [|b0 [|b1 buf]]; [cbn in L; lia|cbn in L; lia|exact H1].
    + unfold IMU_SIZE in *.
      apply (IH (length (skipn 37 buf))); rewrite ?length_skipn; lia.
  - apply head_action_cmd in E. destruct E as (L & -> & H7 & C).
    cbn [fst snd]. rewrite <- (firstn_skipn CMD_SIZE buf) at 1.
    assert (Lp : length (firstn CMD_SIZE buf) = CMD_SIZE)
      by (apply firstn_length_le; exact L).
    apply carved_cmd.
    + unfold CMD_SIZE in *.
      repeat split; [exact Lp| |exact C].
      destruct buf as [|b0 buf]; [cbn in L; lia|exact H7].
    + unfold CMD_SIZE in *.
      apply (IH (length (skipn 4 buf))); rewrite ?length_skipn; lia.
  - pose proof (head_action_drop _ E) as L.
    destruct buf as [|b0 buf]; [cbn in L; lia|]. cbn [skipn].
    apply carved_drop. cbn [length] in Hn.
    apply (IH (length buf)); lia.
Qed.

Lemma carved_length (buf : list Z) (calls : list Call) (rest : list Z) :
  carved buf calls rest ->
  (bytes_taken calls + length rest <= length buf)%nat /\
  exists dropped, buf = dropped ++ rest.
Proof.
  unfold bytes_taken.
  induction 1 as [rest|b buf calls rest _ [IH [d ->]]
                  |p buf calls rest _ _ [IH [d ->]]
                  |p buf calls rest _ _ [IH [d ->]]].
  - split; [cbn; lia|exists []; reflexivity].
  - split; [cbn [length]; lia|exists (b :: d); reflexivity].
  - split; [|exists (p ++ d); now rewrite app_assoc].
    cbn [map call_packet]. unfold list_sum in *. cbn [fold_right].
    rewrite !length_app in *. lia.
  - split; [|exists (p ++ d); now rewrite app_assoc].
    cbn [map call_packet]. unfold list_sum in *. cbn [fold_right].
    rewrite !length_app in *. lia.
Qed.

Lemma feed_carved (reads : list (list Z)) (buf : list Z) :
  carved (buf ++ concat reads) (fst (feed buf reads)) (snd (feed buf reads)).
Proof.
  rewrite feed_concat. destruct (0 <? length (concat reads))%nat eqn:E.
  - apply scan_carved.
  - destruct (concat reads); [|discriminate]. rewrite app_nil_r. constructor.
Qed.

End Carving.

(** X1: whatever is read and however it is cut into reads, the packets
    handed to the decoders lie in the received bytes (after what the
    accumulator held) in the order of the calls, without overlap and with
    only single dropped bytes between them; each telemetry packet is 37
    bytes starting 0xAA 0x55 and each command packet 4 bytes starting
    with a byte whose bit 7 is clear, both with a matching CRC; what stays
    in the accumulator is the end of the received bytes. *)
Theorem loop_carves_frames_in_order
        (clock : nat -> float) (a : SerialApp) (reads : list (list Z)) :
  exists (a' : SerialApp) (calls : list Call),
    _read_serial_loop clock a reads = Some (Returned a') /\
    decoder_calls a' = decoder_calls a ++ calls /\
    carved (rx_buffer a ++ concat reads) calls (rx_buffer a') /\
    (bytes_taken calls + length (rx_buffer a')
     <= length (rx_buffer a) + length (concat reads))%nat /\
    exists dropped, rx_buffer a ++ concat reads = dropped ++ rx_buffer a'.
Proof.
  destruct (read_loop_feed clock reads a) as (a' & R & B & C & _).
  exists a', (fst (feed (rx_buffer a) reads)).
  split; [exact R|]. split; [exact C|]. rewrite B.
  pose proof (feed_carved reads (rx_buffer a)) as K.
  split; [exact K|]. rewrite <- length_app. apply carved_length. exact K.
Qed.

(** X2: after reads that brought at least one byte, the accumulator holds
    fewer than 37 bytes, on which the loop can decide nothing yet: it is
    empty, or a lone 0xAA, or 0xAA 0x55 followed by fewer than 35 bytes,
    or at most three bytes the first of which has bit 7 clear. *)
Theorem accumulator_waits_below_37_bytes
        (clock : nat -> float) (a : SerialApp) (reads : list (list Z)) :
  concat reads <> [] ->
  exists a' : SerialApp,
    _read_serial_loop clock a reads = Some (Returned a') /\
    waiting (rx_buffer a') /\
    (length (rx_buffer a') < 37)%nat.
Proof.
  intro N. destruct (read_loop_feed clock reads a) as (a' & R & B & _).
  exists a'. split; [exact R|].
  assert (W : waiting (rx_buffer a')).
  { rewrite B, feed_concat.
    destruct (concat reads) as [|b l] eqn:E; [contradiction|].
    cbn [length]. change (0 <? S _)%nat with true. cbv iota.
    apply head_action_break, scan_rest_break. }
  split; [exact W|]. apply waiting_short in W. exact W.
Qed.

Lemma accumulator_waits_below_37_bytes_witness :
  exists a' : SerialApp,
    _read_serial_loop clock_still connected
                      [[0xFF; 0xAA]; []; [0x55; 0x01]] = Some (Returned a') /\
    waiting (rx_buffer a') /\
    (length (rx_buffer a') < 37)%nat.
Proof.
  apply (accumulator_waits_below_37_bytes clock_still connected
           [[0xFF; 0xAA]; []; [0x55; 0x01]]).
  discriminate.
Defined.

(** X3: bytes with bit 7 set other than 0xAA in front of a valid frame
    do no harm: read with an empty accumulator, in any number of reads,
    they are all dropped, the frame is the one packet handed to a decoder
    and nothing is left in the accumulator. *)
Theorem garbage_before_frame_is_skipped
        (clock : nat -> float) (a : SerialApp) (reads : list (list Z))
        (garbage f : list Z) (call : Call) :
  rx_buffer a = [] ->
  Forall (fun b => Z.land b 0x80 <> 0 /\ b <> 0xAA) garbage ->
  (imu_frame f /\ call = CallImu f) \/ (cmd_frame f /\ call = CallCmd f) ->
  concat reads = garbage ++ f ->
  exists a' : SerialApp,
    _read_serial_loop clock a reads = Some (Returned a') /\
    decoder_calls a' = decoder_calls a ++ [call] /\
    rx_buffer a' = [].
Proof.
  intros Hb G F Hc.
  destruct (read_loop_feed clock reads a) as (a' & R & B & C & _).
  exists a'. split; [exact R|].
  assert (Hs : scan (garbage ++ f) = ([call], [])).
  { rewrite <- (app_nil_r f) at 1.
    rewrite (scan_skips_rejected garbage (f ++ [])).
    - destruct F as [[F ->]|[F ->]];
        [rewrite (scan_imu_frame f [] F)|rewrite (scan_cmd_frame f [] F)];
        reflexivity.
    - clear - G. induction G as [|b g [H7 HA] G IH]; intros k Hk;
        [cbn in Hk; lia|].
      destruct k as [|k].
      + right; right; right. cbn [skipn app nth length]. repeat split; [lia|exact H7|exact HA].
      + cbn [skipn app]. apply IH. cbn [length] in Hk. lia. }
  assert (Hf : feed (rx_buffer a) reads = ([call], [])).
  { rewrite feed_concat, Hb, Hc. cbn [app].
    destruct (garbage ++ f) as [|b l] eqn:E.
    - cbv in Hs. discriminate.
    - cbn [length]. change (0 <? S _)%nat with true. exact Hs. }
  rewrite Hf in B, C. split; [exact C|exact B].
Qed.

Lemma garbage_before_frame_is_skipped_witness :
  exists a' : SerialApp,
    _read_serial_loop clock_still connected
                      [[0xFF; 0x80]; [0xC3; 0x00; 0x00]; [0x01; 0x07]]
    = Some (Returned a') /\
    decoder_calls a' = decoder_calls connected ++ [CallCmd [0x00; 0x00; 0x01; 0x07]] /\
    rx_buffer a' = [].
Proof.
  apply (garbage_before_frame_is_skipped
           clock_still connected
           [[0xFF; 0x80]; [0xC3; 0x00; 0x00]; [0x01; 0x07]]
           [0xFF; 0x80; 0xC3] [0x00; 0x00; 0x01; 0x07]
           (CallCmd [0x00; 0x00; 0x01; 0x07])).
  - reflexivity.
  - repeat constructor; discriminate.
  - right. split; [|reflexivity]. unfold cmd_frame, crc_ok.
    repeat split.
  - reflexivity.
Defined.

(* ================================================================= *)
(** * Further properties of the CRC *)

Section CrcDetection.

Lemma byte_land (x : Z) : is_byte x -> Z.land x 0xFF = x.
Proof.
  intros [H0 H1]. change 0xFF with (Z.ones 8).
  rewrite Z.land_ones by lia. apply Z.mod_small. change (2 ^ 8) with 256. lia.
Qed.

Lemma lxor_byte (x y : Z) : is_byte x -> is_byte y -> is_byte (Z.lxor x y).
Proof.
  intros Hx Hy. rewrite <- (byte_land x Hx), <- (byte_land y Hy).
  rewrite <- land_lxor_distr. apply land_255_range.
Qed.

Lemma byte_bit7_clear (c : Z) : is_byte c -> Z.testbit c 7 = false -> c < 128.
Proof.
  intros [H0 H1] T. pose proof (Z.testbit_spec' c 7 ltac:(lia)) as S.
  rewrite T in S. cbn [Z.b2z] in S. change (2 ^ 7) with 128 in S.
  assert (D : 0 <= c / 128 < 2)
    by (split; [apply Z.div_pos; lia|apply Z.div_lt_upper_bound; lia]).
  assert (Q : c / 128 = 0).
  { destruct (Z.eq_dec (c / 128) 0) as [E|E]; [exact E|].
    assert (E1 : c / 128 = 1) by lia. rewrite E1 in S. discriminate. }
  apply Z.div_small_iff in Q; lia.
Qed.

(** The shift step sends no byte but zero to zero. *)
Lemma crc8_shift_zero (c : Z) : is_byte c -> crc8_shift c = 0 -> c = 0.
Proof.
  intros Hc. unfold crc8_shift. rewrite bit7_test.
  destruct (Z.testbit c 7) eqn:T; intro E.
  - assert (B : Z.testbit (Z.land (Z.lxor (Z.shiftl c 1) 7) 255) 0 = true).
    { rewrite Z.land_spec, Z.lxor_spec, Z.shiftl_spec_low by lia. reflexivity. }
    rewrite E in B. discriminate.
  - pose proof (byte_bit7_clear c Hc T) as L. destruct Hc as [H0 _].
    change 255 with (Z.ones 8) in E. rewrite Z.land_ones in E by lia.
    rewrite Z.shiftl_mul_pow2 in E by lia. change (2 ^ 1) with 2 in E.
    change (2 ^ 8) with 256 in E. rewrite Z.mod_small in E by lia. lia.
Qed.

Lemma crc8_shift_inj (x y : Z) :
  is_byte x -> is_byte y -> crc8_shift x = crc8_shift y -> x = y.
Proof.
  intros Hx Hy E. apply Z.lxor_eq.
  apply crc8_shift_zero; [apply lxor_byte; assumption|].
  rewrite crc8_shift_lxor, E. apply Z.lxor_nilpotent.
Qed.

Lemma crc8_byte_inj (c c' b b' : Z) :
  is_byte c -> is_byte c' -> is_byte b -> is_byte b' ->
  crc8_byte c b = crc8_byte c' b' -> Z.lxor c b = Z.lxor c' b'.
Proof.
  intros Hc Hc' Hb Hb'. unfold crc8_byte. cbv [Nat.iter nat_rect]. intro E.
  repeat (apply crc8_shift_inj in E;
          [|repeat apply crc8_shift_range || (apply lxor_byte; assumption)..]).
  exact E.
Qed.

Lemma fold_crc8_inj (m : list Z) (c c' : Z) :
  Forall is_byte m -> is_byte c -> is_byte c' ->
  fold_left crc8_byte m c = fold_left crc8_byte m c' -> c = c'.
Proof.
  intro F. revert c c'. induction F as [|b m Hb _ IH]; intros c c' Hc Hc' E;
    [exact E|].
  cbn [fold_left] in E. apply IH in E; try apply crc8_byte_range.
  apply crc8_byte_inj in E; try assumption.
  apply (f_equal (fun z => Z.lxor z b)) in E.
  now rewrite !Z.lxor_assoc, Z.lxor_nilpotent, !Z.lxor_0_r in E.
Qed.

Lemma crc8_single_byte (m1 m2 : list Z) (b b' : Z) :
  is_byte b -> is_byte b' -> Forall is_byte m2 ->
  crc8_atm (m1 ++ b :: m2) = crc8_atm (m1 ++ b' :: m2) -> b = b'.
Proof.
  intros Hb Hb' F. unfold crc8_atm. rewrite !fold_left_app. cbn [fold_left].
  intro E. apply fold_crc8_inj in E; try assumption; try apply crc8_byte_range.
  apply crc8_byte_inj in E; try assumption;
    try (apply (crc8_atm_range m1)).
  apply (f_equal (Z.lxor (fold_left crc8_byte m1 0))) in E.
  now rewrite <- !Z.lxor_assoc, Z.lxor_nilpotent, !Z.lxor_0_l in E.
Qed.

End CrcDetection.

(** X4: [crc8_atm] detects every corruption confined to one byte: two
    byte sequences that differ in exactly one byte never have the same
    CRC. *)
Theorem crc8_detects_single_byte_error (m1 m2 : list Z) (b b' : Z) :
  is_byte b -> is_byte b' -> Forall is_byte m2 -> b <> b' ->
  crc8_atm (m1 ++ b :: m2) <> crc8_atm (m1 ++ b' :: m2).
Proof.
  intros Hb Hb' F N E. apply N. exact (crc8_single_byte m1 m2 b b' Hb Hb' F E).
Qed.

Lemma crc8_detects_single_byte_error_witness :
  crc8_atm ([0x01] ++ 0x0C :: [0xFE]) <> crc8_atm ([0x01] ++ 0x0D :: [0xFE]).
Proof.
  apply (crc8_detects_single_byte_error [0x01] [0xFE] 0x0C 0x0D).
  - unfold is_byte. lia.
  - unfold is_byte. lia.
  - repeat constructor; unfold is_byte; lia.
  - discriminate.
Defined.

(** X5: [crc8_atm] is linear for XOR: the CRC of the bytewise XOR of two
    sequences of the same length is the XOR of their CRCs (initial value
    zero, no final XOR); and a sequence followed by its own CRC has CRC
    zero. *)
Theorem crc8_linear_and_residue (d1 d2 : list Z) :
  length d1 = length d2 ->
  crc8_atm (map (fun p => Z.lxor (fst p) (snd p)) (combine d1 d2))
  = Z.lxor (crc8_atm d1) (crc8_atm d2) /\
  crc8_atm (d1 ++ [crc8_atm d1]) = 0.
Proof.
  intro L. split.
  - unfold crc8_atm. change 0x00 with (Z.lxor 0 0) at 1.
    now apply fold_crc8_lxor.
  - rewrite crc8_atm_snoc. unfold crc8_byte. rewrite Z.lxor_nilpotent.
    reflexivity.
Qed.

Lemma crc8_linear_and_residue_witness :
  crc8_atm [Z.lxor 0x01 0xAA; Z.lxor 0x0C 0x55; Z.lxor 0xFE 0x00]
  = Z.lxor (crc8_atm [0x01; 0x0C; 0xFE]) (crc8_atm [0xAA; 0x55; 0x00]).
Proof.
  exact (proj1 (crc8_linear_and_residue [0x01; 0x0C; 0xFE] [0xAA; 0x55; 0x00]
                                        eq_refl)).
Defined.

(* ================================================================= *)
(** * Corrupted frames and echoed requests *)

Section Corruption.

Lemma crc_ok_snoc (body : list Z) (c : Z) :
  crc_ok (body ++ [c]) <-> crc8_atm body = c.
Proof. unfold crc_ok. rewrite removelast_last, last_last. reflexivity. Qed.

Lemma corrupted_crc_fails (pre post : list Z) (b b' : Z) :
  Forall is_byte (pre ++ b :: post) -> is_byte b' -> b' <> b ->
  crc_ok (pre ++ b :: post) -> ~ crc_ok (pre ++ b' :: post).
Proof.
  intros F Hb' N.
  apply Forall_app in F. destruct F as [_ F].
  apply Forall_cons_iff in F. destruct F as [Hb Fp].
  destruct (exists_last (l := b :: post) ltac:(discriminate)) as (body & z & E).
  destruct post as [|p post].
  - rewrite !crc_ok_snoc. congruence.
  - destruct (exists_last (l := p :: post) ltac:(discriminate)) as (mid & c & Ep).
    rewrite Ep in *.
    replace (pre ++ b :: mid ++ [c]) with ((pre ++ b :: mid) ++ [c])
      by (rewrite <- app_assoc; reflexivity).
    replace (pre ++ b' :: mid ++ [c]) with ((pre ++ b' :: mid) ++ [c])
      by (rewrite <- app_assoc; reflexivity).
    rewrite !crc_ok_snoc. intros C C'.
    apply Forall_app in Fp. destruct Fp as [Fm _].
    apply N. symmetry.
    apply (crc8_single_byte pre mid b b' Hb Hb' Fm). congruence.
Qed.

Lemma head_action_short_cmd (buf : list Z) :
  Z.land (nth 0 buf 0) 0x80 = 0 -> (length buf < CMD_SIZE)%nat ->
  head_action buf = Break.
Proof.
  intros H7 L. unfold head_action. cbv zeta.
  destruct (nth 0 buf 0 =? 0xAA) eqn:E0.
  { apply Z.eqb_eq in E0. rewrite E0 in H7. discriminate. }
  rewrite H7, Z.eqb_refl.
  apply Nat.ltb_lt in L. now rewrite L.
Qed.

Lemma head_action_aa55_short (buf : list Z) :
  nth 0 buf 0 = 0xAA -> nth 1 buf 0 = 0x55 ->
  (2 <= length buf < IMU_SIZE)%nat -> head_action buf = Break.
Proof.
  intros H0 H1 [L2 L]. unfold head_action. cbv zeta.
  rewrite H0, H1, !Z.eqb_refl.
  replace (length buf <? 2)%nat with false by (symmetry; apply Nat.ltb_ge; lia).
  apply Nat.ltb_lt in L. now rewrite L.
Qed.

Lemma scan_break (buf : list Z) : head_action buf = Break -> scan buf = ([], buf).
Proof. intro E. now rewrite scan_eq, E. Qed.

Lemma scan_drop (b : Z) (buf : list Z) :
  rejects (b :: buf) -> scan (b :: buf) = scan buf.
Proof. intro R. now rewrite scan_eq, (rejects_drop _ R). Qed.

(** Four bytes whose first has bit 7 set and whose third is zero: no
    packet comes out of them and some of them stay. *)
Lemma scan_read_request (h d0 c : Z) :
  Z.land h 0x80 <> 0 ->
  fst (scan [h; d0; 0; c]) = [] /\ snd (scan [h; d0; 0; c]) <> [].
Proof.
  intro H7.
  assert (T2 : scan [0; c] = ([], [0; c])).
  { apply scan_break, head_action_short_cmd; [reflexivity|cbn; unfold CMD_SIZE; lia]. }
  assert (T3 : fst (scan [d0; 0; c]) = [] /\ snd (scan [d0; 0; c]) <> []).
  { destruct (Z.eq_dec d0 0xAA) as [->|NA].
    - rewrite scan_drop, T2; [split; [reflexivity|discriminate]|].
      left. cbn. repeat split; [lia|discriminate].
    - destruct (Z.eq_dec (Z.land d0 0x80) 0) as [Z7|N7].
      + rewrite scan_break; [split; [reflexivity|discriminate]|].
        apply head_action_short_cmd; [exact Z7|cbn; unfold CMD_SIZE; lia].
      + rewrite scan_drop, T2; [split; [reflexivity|discriminate]|].
        right; right; right. cbn. repeat split; [lia|exact N7|exact NA]. }
  destruct (Z.eq_dec h 0xAA) as [->|NA].
  - destruct (Z.eq_dec d0 0x55) as [->|N5].
    + rewrite scan_break; [split; [reflexivity|discriminate]|].
      apply head_action_aa55_short; [reflexivity|reflexivity|].
      cbn; unfold IMU_SIZE; lia.
    + rewrite scan_drop; [exact T3|].
      left. cbn. repeat split; [lia|exact N5].
  - rewrite scan_drop; [exact T3|].
    right; right; right. cbn. repeat split; [lia|exact H7|exact NA].
Qed.

End Corruption.

(** X6: a valid frame in which one byte, any one, has been changed fails
    the CRC test, so the loop never hands these bytes to a decoder as the
    frame they were, whatever follows them. *)
Theorem corrupted_frame_is_not_accepted
        (pre post more : list Z) (b b' : Z) :
  Forall is_byte (pre ++ b :: post) -> is_byte b' -> b' <> b ->
  crc_ok (pre ++ b :: post) ->
  ~ crc_ok (pre ++ b' :: post) /\
  head_action ((pre ++ b' :: post) ++ more) <> DecodeImu (pre ++ b' :: post) /\
  head_action ((pre ++ b' :: post) ++ more) <> DecodeCmd (pre ++ b' :: post).
Proof.
  intros F Hb' N C.
  pose proof (corrupted_crc_fails pre post b b' F Hb' N C) as K.
  split; [exact K|]. split; intro E.
  - apply head_action_imu in E. destruct E as (_ & _ & _ & _ & C'). auto.
  - apply head_action_cmd in E. destruct E as (_ & _ & _ & C'). auto.
Qed.

Lemma corrupted_frame_is_not_accepted_witness :
  ~ crc_ok ([0x01] ++ 0x0D :: [0xFE; 0x63]) /\
  head_action (([0x01] ++ 0x0D :: [0xFE; 0x63]) ++ [0x00])
  <> DecodeImu ([0x01] ++ 0x0D :: [0xFE; 0x63]) /\
  head_action (([0x01] ++ 0x0D :: [0xFE; 0x63]) ++ [0x00])
  <> DecodeCmd ([0x01] ++ 0x0D :: [0xFE; 0x63]).
Proof.
  apply (corrupted_frame_is_not_accepted [0x01] [0xFE; 0x63] [0x00] 0x0C 0x0D).
  - repeat constructor; unfold is_byte; lia.
  - unfold is_byte; lia.
  - discriminate.
  - unfold crc_ok. vm_compute. reflexivity.
Defined.

(** X7: a READ request is never taken for a response: the four bytes
    that [_send_frame] writes in READ mode, read back with an empty
    accumulator in any number of reads, are handed to no decoder and log
    nothing; but some of them stay in the accumulator, in front of
    whatever arrives next. *)
Theorem read_request_is_never_decoded
        (clock : nat -> float) (a : SerialApp) (register value : Z)
        (frame : list Z) (reads : list (list Z)) :
  rx_buffer a = [] ->
  frame_bytes (Z.land register 0x7F) true value = Some frame ->
  concat reads = frame ->
  exists a' : SerialApp,
    _read_serial_loop clock a reads = Some (Returned a') /\
    decoder_calls a' = decoder_calls a /\
    txt_log a' = txt_log a /\
    rx_buffer a' <> [].
Proof.
  intros Hb Hf Hc.
  destruct (frame_bytes_total register true value) as [E _].
  cbv beta iota zeta in E.
  set (h := Z.lor 0x80 (Z.land register 0x7F)) in *.
  set (d0 := Z.land value 0xFF) in *.
  set (c := crc8_atm [h; d0; 0]) in *.
  assert (Ef : frame = [h; d0; 0; c]) by congruence.
  assert (H7 : Z.land h 0x80 <> 0).
  { subst h. rewrite Z.land_lor_distr_l, <- Z.land_assoc.
    change (Z.land 0x7F 0x80) with 0. rewrite Z.land_0_r. discriminate. }
  destruct (scan_read_request h d0 c H7) as [S1 S2].
  destruct (read_loop_feed clock reads a) as (a' & R & B & C & L).
  exists a'. split; [exact R|].
  rewrite feed_concat, Hb, Hc, Ef in B, C, L. cbn [app length] in B, C, L.
  change (0 <? 4)%nat with true in B, C, L. cbv iota in B, C, L.
  rewrite S1 in C, L. cbn [flat_map] in L. rewrite app_nil_r in C, L.
  split; [exact C|]. split; [exact L|]. rewrite B. exact S2.
Qed.

Lemma read_request_is_never_decoded_witness :
  exists a' : SerialApp,
    _read_serial_loop clock_still connected [[0xAA; 0x00]; [0x00; 0xCF]]
    = Some (Returned a') /\
    decoder_calls a' = decoder_calls connected /\
    txt_log a' = txt_log connected /\
    rx_buffer a' <> [].
Proof.
  apply (read_request_is_never_decoded
           clock_still connected 0x2A 0 [0xAA; 0x00; 0x00; 0xCF]
           [[0xAA; 0x00]; [0x00; 0xCF]]); reflexivity.
Defined.

(* ================================================================= *)
(** * Further properties of [_send_frame] *)

(** X8: [_send_frame] writes to the port exactly when the application is
    connected and both fields are read as integers, and then it writes
    one frame; when it is not connected it only logs the connection
    error, and when a field is not a number it only logs the format
    error: nothing is written and no slider moves. *)
Theorem send_frame_writes_iff_ready (a : SerialApp) :
  let ready := is_connected a && ser a in
  let fields_ok :=
    match Py.int (Py.strip (entry_reg a)) 16,
          int_or_zero (Py.strip (entry_data a)) with
    | Some _, Some _ => true
    | _, _ => false
    end in
  (ready = true -> fields_ok = true ->
   length (ser_written (_send_frame a)) = S (length (ser_written a))) /\
  (ready = false -> _send_frame a = log_cmd LogNotConnected a) /\
  (ready = true -> fields_ok = false -> _send_frame a = log_cmd LogFormat a).
Proof.
  cbv zeta. split; [|split].
  - intros R F. apply andb_true_iff in R. destruct R as [Hc Hs].
    destruct (Py.int (Py.strip (entry_reg a)) 16) as [r|] eqn:Er;
      [|discriminate].
    destruct (int_or_zero (Py.strip (entry_data a))) as [v|] eqn:Ev;
      [|discriminate].
    destruct (send_frame_connected a r v Hc Hs Er Ev) as [W _].
    rewrite W, length_app. cbn [length]. lia.
  - intro R. unfold _send_frame.
    destruct (is_connected a), (ser a); try discriminate; reflexivity.
  - intros R F. apply andb_true_iff in R. destruct R as [Hc Hs].
    unfold _send_frame. rewrite Hc, Hs. cbn [negb orb]. cbv zeta.
    destruct (Py.int (Py.strip (entry_reg a)) 16) as [r|]; [|reflexivity].
    destruct (int_or_zero (Py.strip (entry_data a))) as [v|];
      [discriminate|reflexivity].
Qed.

(** X9: what is written is read back: in WRITE mode, with a register [r]
    and a signed 16-bit value [v] in the fields, the frame written by
    [_send_frame], read by an application with an empty accumulator in
    any number of reads, is handed to the command decoder, which logs
    register [r & 0x7F] and the value [v]; nothing stays in the
    accumulator. *)
Theorem written_value_is_read_back
        (clock : nat -> float) (tx rx : SerialApp) (r v : Z)
        (reads : list (list Z)) :
  is_connected tx = true -> ser tx = true ->
  Py.int (Py.strip (entry_reg tx)) 16 = Some r ->
  int_or_zero (Py.strip (entry_data tx)) = Some v ->
  switch_rw tx <> 1 ->
  -32768 <= v < 32768 ->
  rx_buffer rx = [] ->
  ser_written (_send_frame tx) = ser_written tx ++ [concat reads] ->
  exists (rx' : SerialApp) (crc : Z),
    _read_serial_loop clock rx reads = Some (Returned rx') /\
    txt_log rx'
    = txt_log rx ++ [LogRx (Z.land r 0x7F) (Z.land r 0x7F)
                           (Z.land v 0xFF) (Z.land (Z.shiftr v 8) 0xFF) crc v] /\
    rx_buffer rx' = [].
Proof.
  intros Hc Hs Er Ev Hw Rv Hb Hf.
  destruct (send_frame_connected tx r v Hc Hs Er Ev) as [W _].
  apply Z.eqb_neq in Hw. rewrite Hw in W. cbv beta iota zeta in W.
  rewrite Z.lor_0_l in W. rewrite W in Hf.
  apply app_inv_head in Hf. injection Hf as Hf.
  set (d0 := Z.land v 0xFF) in *. set (d1 := Z.land (Z.shiftr v 8) 0xFF) in *.
  set (h := Z.land r 0x7F) in *. set (crc := crc8_atm [h; d0; d1]) in *.
  assert (F : cmd_frame [h; d0; d1; crc]).
  { split; [reflexivity|]. split.
    - cbn [nth]. subst h. rewrite <- Z.land_assoc.
      change (Z.land 0x7F 0x80) with 0. apply Z.land_0_r.
    - unfold crc_ok. cbn [removelast last]. reflexivity. }
  destruct (read_loop_feed clock reads rx) as (rx' & R & B & _ & L).
  exists rx', crc. split; [exact R|].
  assert (E : feed (rx_buffer rx) reads = ([CallCmd [h; d0; d1; crc]], [])).
  { rewrite feed_concat, Hb, <- Hf. cbn [app length].
    change (0 <? 4)%nat with true. cbv iota.
    rewrite <- (app_nil_r [h; d0; d1; crc]).
    rewrite (scan_cmd_frame _ [] F). reflexivity. }
  rewrite E in B, L. split; [|exact B].
  rewrite L. cbn [fst flat_map call_log app]. do 2 f_equal.
  subst d0 d1. rewrite (signed16_round_trip h crc v Rv). f_equal.
  subst h. rewrite <- Z.land_assoc. reflexivity.
Qed.

Lemma written_value_is_read_back_witness :
  exists (rx' : SerialApp) (crc : Z),
    _read_serial_loop clock_still connected [[0x01; 0x0C]; [0xFE; 0x63]]
    = Some (Returned rx') /\
    txt_log rx'
    = txt_log connected
      ++ [LogRx (Z.land 1 0x7F) (Z.land 1 0x7F)
                (Z.land (-500) 0xFF) (Z.land (Z.shiftr (-500) 8) 0xFF) crc (-500)] /\
    rx_buffer rx' = [].
Proof.
  apply (written_value_is_read_back
           clock_still write_motor_minus_500 connected 1 (-500)
           [[0x01; 0x0C]; [0xFE; 0x63]]);
    try reflexivity; try discriminate; lia.
Defined.

(* ================================================================= *)
(** * [str] and [int] on integers *)

Example int_of_float_truncates :
  PyConv.int_of_float (-3.75)%float = Some (-3) /\
  PyConv.int_of_float 1000%float = Some 1000 /\
  PyConv.int_of_float 0.5%float = Some 0 /\
  PyConv.int_of_float infinity = None.
Proof. repeat split. Qed.

Example str_of_some_integers :
  PyConv.str 0 = "0"%string /\ PyConv.str (-500) = "-500"%string /\
  PyConv.str 70000 = "70000"%string.
Proof. repeat split. Qed.

Section StrInt.

Lemma digit_char_facts (d : Z) :
  is_digit d ->
  Ascii.eqb (PyConv.digit_char d) "_" = false /\
  Ascii.eqb (PyConv.digit_char d) "+" = false /\
  Ascii.eqb (PyConv.digit_char d) "-" = false /\
  Py.digit_value (PyConv.digit_char d) = Some d /\
  Py.isspace (PyConv.digit_char d) = false /\
  Py.c_isspace (PyConv.digit_char d) = false /\
  Py.to_ascii_char (PyConv.digit_char d) = PyConv.digit_char d.
Proof.
  intro H.
  assert (C : d = 0 \/ d = 1 \/ d = 2 \/ d = 3 \/ d = 4 \/ d = 5 \/ d = 6 \/
              d = 7 \/ d = 8 \/ d = 9) by (unfold is_digit in H; lia).
  repeat (destruct C as [->|C]; [vm_compute; repeat split|]).
  subst d. vm_compute. repeat split.
Qed.

Lemma digits_rev_range (fuel : nat) (n : Z) :
  Forall is_digit (PyConv.digits_rev fuel n).
Proof.
  revert n. induction fuel as [|fuel IH]; intro n; [constructor|].
  cbn [PyConv.digits_rev]. constructor.
  - unfold is_digit. apply Z.mod_pos_bound. lia.
  - destruct (n / 10 =? 0); [constructor|apply IH].
Qed.

Lemma digits_rev_length (fuel : nat) (n : Z) :
  (length (PyConv.digits_rev fuel n) <= fuel)%nat.
Proof.
  revert n. induction fuel as [|fuel IH]; intro n; [cbn; lia|].
  cbn [PyConv.digits_rev length].
  destruct (n / 10 =? 0); [cbn; lia|]. specialize (IH (n / 10)). lia.
Qed.

Lemma digits_rev_value (fuel : nat) (n : Z) :
  0 <= n < 2 ^ Z.of_nat fuel ->
  fold_right (fun d a => d + 10 * a) 0 (PyConv.digits_rev fuel n) = n.
Proof.
  revert n. induction fuel as [|fuel IH]; intros n H.
  - cbn in *. lia.
  - cbn [PyConv.digits_rev fold_right].
    pose proof (Z.div_mod n 10 ltac:(lia)) as D.
    destruct (Z.eqb_spec (n / 10) 0) as [E|E].
    + cbn [fold_right]. lia.
    + rewrite IH; [lia|].
      rewrite Nat2Z.inj_succ, Z.pow_succ_r in H by lia.
      split; [apply Z.div_pos; lia|].
      apply Z.div_lt_upper_bound; lia.
Qed.

Lemma fold_left_rev_digits (l : list Z) :
  fold_left (fun a d => a * 10 + d) (rev l) 0
  = fold_right (fun d a => d + 10 * a) 0 l.
Proof.
  induction l as [|d l IH]; [reflexivity|].
  cbn [rev fold_right]. rewrite fold_left_app. cbn [fold_left]. lia.
Qed.

Lemma scan_digits_decimal (ds : list Z) (k : nat) (acc : Z) :
  Forall is_digit ds ->
  Py.scan_digits 10 (map PyConv.digit_char ds) false k acc
  = Some (fold_left (fun a d => a * 10 + d) ds acc, (k + length ds)%nat, []).
Proof.
  intro F. revert k acc. induction F as [|d ds Hd _ IH]; intros k acc.
  - cbn. now rewrite Nat.add_0_r.
  - destruct (digit_char_facts d Hd) as (U & _ & _ & V & _).
    cbn [map Py.scan_digits]. rewrite U, V.
    replace (d <? 10) with true
      by (symmetry; apply Z.ltb_lt; unfold is_digit in Hd; lia).
    rewrite IH. cbn [fold_left length]. now rewrite Nat.add_succ_r.
Qed.

Lemma digits_of_facts (n : Z) :
  0 <= n ->
  Forall is_digit (digits_of n) /\
  digits_of n <> [] /\
  (length (digits_of n) <= S (Z.to_nat (Z.log2 n)))%nat /\
  fold_left (fun a d => a * 10 + d) (digits_of n) 0 = n.
Proof.
  intro H. unfold digits_of. repeat split.
  - apply Forall_rev, digits_rev_range.
  - cbn [PyConv.digits_rev rev]. intro E. apply app_eq_nil in E.
    destruct E as [_ E]. discriminate.
  - rewrite length_rev. apply digits_rev_length.
  - rewrite fold_left_rev_digits. apply digits_rev_value.
    split; [exact H|].
    rewrite Nat2Z.inj_succ, Z2Nat.id by apply Z.log2_nonneg.
    destruct (Z.eq_dec n 0) as [->|N]; [reflexivity|].
    apply Z.log2_spec. lia.
Qed.

Lemma long_from_string_digits (ds : list Z) (negative : bool) :
  Forall is_digit ds -> ds <> [] -> (length ds <= Py.max_str_digits)%nat ->
  Py.long_from_string
    10 (if negative then "-"%char :: map PyConv.digit_char ds
        else map PyConv.digit_char ds)
  = Some (if negative then - fold_left (fun a d => a * 10 + d) ds 0
          else fold_left (fun a d => a * 10 + d) ds 0).
Proof.
  intros F N L.
  assert (S0 : Py.long_from_string 10 (map PyConv.digit_char ds)
               = Some (fold_left (fun a d => a * 10 + d) ds 0)
               /\ Py.long_from_string 10 ("-"%char :: map PyConv.digit_char ds)
                  = Some (- fold_left (fun a d => a * 10 + d) ds 0)).
  { pose proof (scan_digits_decimal ds 0 0 F) as Sd.
    destruct ds as [|d ds]; [contradiction|].
    pose proof (Forall_inv F) as Hd.
    destruct (digit_char_facts d Hd) as (U & P & M & _ & _ & C & _).
    cbn [map] in *.
    assert (K : (length (d :: ds) =? 0)%nat = false) by reflexivity.
    assert (K' : (Py.max_str_digits <? length (d :: ds))%nat = false)
      by (apply Nat.ltb_ge; exact L).
    unfold Py.long_from_string. split.
    - cbn [Py.skip_c_space]. rewrite C, P, M.
      change (10 =? 16) with false. cbn [andb].
      assert (Pre : match PyConv.digit_char d :: map PyConv.digit_char ds with
                    | c0 :: c1 :: s' =>
                        if false
                        then match s' with
                             | c2 :: s'' => if Ascii.eqb c2 "_" then s'' else s'
                             | [] => s'
                             end
                        else PyConv.digit_char d :: map PyConv.digit_char ds
                    | _ => PyConv.digit_char d :: map PyConv.digit_char ds
                    end = PyConv.digit_char d :: map PyConv.digit_char ds)
        by (destruct (map PyConv.digit_char ds); reflexivity).
      rewrite Pre, U, Sd. cbn [Nat.add]. rewrite K.
      change (negb false) with true. cbn [andb]. rewrite K'. reflexivity.
    - cbn [Py.skip_c_space].
      change (Py.c_isspace "-") with false. cbv iota.
      change (Ascii.eqb "-" "+") with false.
      change (Ascii.eqb "-" "-") with true. cbv iota.
      change (10 =? 16) with false. cbn [andb].
      assert (Pre : match PyConv.digit_char d :: map PyConv.digit_char ds with
                    | c0 :: c1 :: s' =>
                        if false
                        then match s' with
                             | c2 :: s'' => if Ascii.eqb c2 "_" then s'' else s'
                             | [] => s'
                             end
                        else PyConv.digit_char d :: map PyConv.digit_char ds
                    | _ => PyConv.digit_char d :: map PyConv.digit_char ds
                    end = PyConv.digit_char d :: map PyConv.digit_char ds)
        by (destruct (map PyConv.digit_char ds); reflexivity).
      rewrite Pre, U, Sd. cbn [Nat.add]. rewrite K.
      change (negb false) with true. cbn [andb]. rewrite K'. reflexivity. }
  destruct negative; tauto.
Qed.

End StrInt.

Section StrIntRoundTrip.

Lemma lstrip_plain (l : list ascii) :
  Forall (fun c => Py.isspace c = false) l -> Py.lstrip l = l.
Proof. intros [|c t H _]; [reflexivity|]. cbn [Py.lstrip]. now rewrite H. Qed.

Lemma strip_plain (l : list ascii) :
  Forall (fun c => Py.isspace c = false) l ->
  Py.strip (string_of_list_ascii l) = l.
Proof.
  intro F. unfold Py.strip, Py.rstrip.
  rewrite list_ascii_of_string_of_list_ascii, (lstrip_plain l F).
  rewrite lstrip_plain by (apply Forall_rev; exact F). apply rev_involutive.
Qed.

Lemma str_chars_shape (n : Z) :
  PyConv.str_chars n
  = if n <? 0 then "-"%char :: map PyConv.digit_char (digits_of (- n))
    else map PyConv.digit_char (digits_of n).
Proof. reflexivity. Qed.

Lemma digit_chars_plain (ds : list Z) :
  Forall is_digit ds ->
  Forall (fun c => Py.isspace c = false) (map PyConv.digit_char ds) /\
  map Py.to_ascii_char (map PyConv.digit_char ds) = map PyConv.digit_char ds.
Proof.
  induction 1 as [|d ds Hd _ [IH1 IH2]]; [split; [constructor|reflexivity]|].
  destruct (digit_char_facts d Hd) as (_ & _ & _ & _ & S & _ & T).
  split; [constructor; assumption|]. cbn [map]. now rewrite T, IH2.
Qed.

(** What [str] prints, [int] reads. *)
Lemma int_of_str (n : Z) :
  Z.log2 (Z.abs n) < 4299 ->
  Py.int (Py.strip (PyConv.str n)) 10 = Some n.
Proof.
  intro B. unfold PyConv.str, Py.int. rewrite str_chars_shape.
  destruct (Z.ltb_spec n 0) as [N|P].
  - destruct (digits_of_facts (- n) ltac:(lia)) as (F & NE & L & V).
    destruct (digit_chars_plain _ F) as [Pl T].
    rewrite strip_plain by (constructor; [reflexivity|exact Pl]).
    cbn [map]. change (Py.to_ascii_char "-") with "-"%char. rewrite T.
    rewrite (long_from_string_digits _ true F NE), V; [f_equal; lia|].
    replace (Z.abs n) with (- n) in B by lia.
    unfold Py.max_str_digits. apply (Nat.le_trans _ _ _ L).
    apply Nat2Z.inj_le. rewrite Nat2Z.inj_succ, Z2Nat.id by apply Z.log2_nonneg.
    change (Z.of_nat 4300) with 4300. lia.
  - destruct (digits_of_facts n P) as (F & NE & L & V).
    destruct (digit_chars_plain _ F) as [Pl T].
    rewrite strip_plain by exact Pl. rewrite T.
    rewrite (long_from_string_digits _ false F NE), V; [reflexivity|].
    replace (Z.abs n) with n in B by lia.
    unfold Py.max_str_digits. apply (Nat.le_trans _ _ _ L).
    apply Nat2Z.inj_le. rewrite Nat2Z.inj_succ, Z2Nat.id by apply Z.log2_nonneg.
    change (Z.of_nat 4300) with 4300. lia.
Qed.

Lemma int_of_str_16bit (n : Z) :
  -32768 <= n < 32768 -> Py.int (Py.strip (PyConv.str n)) 10 = Some n.
Proof.
  intro R. apply int_of_str.
  destruct (Z.eq_dec n 0) as [->|N]; [reflexivity|].
  apply Z.log2_lt_pow2; [lia|].
  apply Z.lt_trans with (2 ^ 16); [change (2 ^ 16) with 65536; lia|].
  apply Z.pow_lt_mono_r; lia.
Qed.

Lemma str_not_empty (n : Z) : Py.strip (PyConv.str n) <> [].
Proof.
  unfold PyConv.str. rewrite str_chars_shape.
  destruct (Z.ltb_spec n 0) as [N|P].
  - destruct (digits_of_facts (- n) ltac:(lia)) as (F & NE & _).
    destruct (digit_chars_plain _ F) as [Pl _].
    rewrite strip_plain by (constructor; [reflexivity|exact Pl]). discriminate.
  - destruct (digits_of_facts n P) as (F & NE & _).
    destruct (digit_chars_plain _ F) as [Pl _].
    rewrite strip_plain by exact Pl.
    destruct (digits_of n); [contradiction|discriminate].
Qed.

End StrIntRoundTrip.

(* ================================================================= *)
(** * The window *)

Section WindowFacts.

(** [_send_frame] touches the port, the log and the sliders only. *)
Lemma send_frame_keeps (a : SerialApp) :
  is_connected (_send_frame a) = is_connected a /\
  ser (_send_frame a) = ser a /\
  is_auto_sending (_send_frame a) = is_auto_sending a /\
  entry_reg (_send_frame a) = entry_reg a /\
  entry_data (_send_frame a) = entry_data a /\
  switch_rw (_send_frame a) = switch_rw a.
Proof.
  unfold _send_frame.
  destruct (negb (is_connected a) || negb (ser a)); [repeat split|].
  cbv zeta.
  destruct (Py.int _ 16) as [r|]; [|repeat split].
  destruct (int_or_zero _) as [v|]; [|repeat split].
  assert (K : forall a0 : SerialApp,
             is_connected (sync_sliders (Z.land r 0x7F) (switch_rw a =? 1) v a0)
             = is_connected a0 /\
             ser (sync_sliders (Z.land r 0x7F) (switch_rw a =? 1) v a0) = ser a0 /\
             is_auto_sending (sync_sliders (Z.land r 0x7F) (switch_rw a =? 1) v a0)
             = is_auto_sending a0 /\
             entry_reg (sync_sliders (Z.land r 0x7F) (switch_rw a =? 1) v a0)
             = entry_reg a0 /\
             entry_data (sync_sliders (Z.land r 0x7F) (switch_rw a =? 1) v a0)
             = entry_data a0 /\
             switch_rw (sync_sliders (Z.land r 0x7F) (switch_rw a =? 1) v a0)
             = switch_rw a0).
  { intro a0. unfold sync_sliders.
    destruct (negb (switch_rw a =? 1)); [|repeat split].
    destruct (Z.land r 0x7F =? 0x00); [repeat split|].
    destruct (Z.land r 0x7F =? 0x01); repeat split. }
  destruct (K a) as (K1 & K2 & K3 & K4 & K5 & K6).
  destruct (frame_bytes _ _ _) as [frame|];
    [|cbn; rewrite K1, K2, K3, K4, K5, K6; repeat split].
  destruct (negb (is_auto_sending (ser_write frame _)));
    cbn; rewrite K1, K2, K3, K4, K5, K6; repeat split.
Qed.

Lemma send_frame_disconnected (a : SerialApp) :
  is_connected a = false -> ser_written (_send_frame a) = ser_written a.
Proof. intro H. unfold _send_frame. rewrite H. reflexivity. Qed.

Lemma auto_send_loop_inv (w : Window) :
  (is_connected (sapp w) = true -> ser (sapp w) = true) ->
  heartbeat_inv (_auto_send_loop w).
Proof.
  intro Hs. unfold _auto_send_loop, heartbeat_inv.
  destruct (is_auto_sending (sapp w) && is_connected (sapp w)) eqn:E.
  - apply andb_true_iff in E. destruct E as [A C].
    destruct (send_frame_keeps (sapp w)) as (K1 & K2 & K3 & _).
    cbn. rewrite K1, K2, K3. split; [exact Hs|]. intros _. split; [exact C|lia].
  - cbn. split; [exact Hs|discriminate].
Qed.

Lemma toggle_auto_send_inv (w : Window) :
  heartbeat_inv w -> heartbeat_inv (_toggle_auto_send w).
Proof.
  intros [Hs Ha]. unfold _toggle_auto_send.
  destruct (is_connected (sapp w)) eqn:C; cbn [negb].
  - destruct (is_auto_sending (sapp w)) eqn:A; cbn [negb].
    + split; cbn; [rewrite C; exact Hs|discriminate].
    + apply auto_send_loop_inv. cbn. rewrite C. exact Hs.
  - split; cbn; rewrite C; [discriminate|exact Ha].
Qed.

Lemma start_heartbeat_inv (w : Window) :
  heartbeat_inv w -> heartbeat_inv (start_heartbeat w).
Proof.
  intro H. unfold start_heartbeat.
  destruct (negb (is_auto_sending (sapp w))); [apply toggle_auto_send_inv|]; exact H.
Qed.

(** A change of the fields, the switch, the sliders or the log does not
    disturb the invariant. *)
Lemma heartbeat_inv_on_app (f : SerialApp -> SerialApp) (w : Window) :
  (forall a, is_connected (f a) = is_connected a /\ ser (f a) = ser a /\
             is_auto_sending (f a) = is_auto_sending a) ->
  heartbeat_inv w -> heartbeat_inv (on_app f w).
Proof.
  intros K [Hs Ha]. destruct (K (sapp w)) as (K1 & K2 & K3).
  unfold heartbeat_inv. cbn. rewrite K1, K2, K3. split; assumption.
Qed.

Lemma force_write_keeps (a : SerialApp) :
  is_connected (force_write a) = is_connected a /\
  ser (force_write a) = ser a /\
  is_auto_sending (force_write a) = is_auto_sending a.
Proof. unfold force_write. destruct (switch_rw a =? 1); repeat split. Qed.

Lemma handle_inv (e : Event) (w : Window) :
  heartbeat_inv w -> heartbeat_inv (handle e w).
Proof.
  intro H. destruct e as [port opened| | | |v|v|t|t| |]; cbn [handle].
  - unfold _toggle_connection. destruct H as [Hs Ha].
    destruct (is_connected (sapp w)) eqn:C; cbn [negb].
    + split; cbn; discriminate.
    + destruct (String.eqb port "Aucun port"); [split; rewrite ?C; assumption|].
      destruct opened.
      * split; cbn; [reflexivity|].
        intro A. apply Ha in A. destruct A as [A _]. congruence.
      * split; cbn; rewrite C; [discriminate|exact Ha].
  - apply heartbeat_inv_on_app; [|exact H].
    intro a. destruct (send_frame_keeps a) as (K1 & K2 & K3 & _). auto.
  - apply toggle_auto_send_inv, H.
  - unfold _emergency_stop.
    assert (K : heartbeat_inv
                  (start_heartbeat
                     (on_app (set_entry_data "0")
                        (on_app (set_entry_reg "01")
                           (on_app (set_slider_servo 0)
                              (on_app (set_slider_motor 0) w)))))).
    { apply start_heartbeat_inv.
      repeat (apply heartbeat_inv_on_app; [intro a; repeat split|]). exact H. }
    destruct K as [Ks Ka]. split; cbn; assumption.
  - unfold _on_servo_slide, on_slide.
    destruct (PyConv.int_of_float v) as [n|]; [|exact H].
    apply start_heartbeat_inv.
    apply heartbeat_inv_on_app; [apply force_write_keeps|].
    repeat (apply heartbeat_inv_on_app; [intro a; repeat split|]). exact H.
  - unfold _on_motor_slide, on_slide.
    destruct (PyConv.int_of_float v) as [n|]; [|exact H].
    apply start_heartbeat_inv.
    apply heartbeat_inv_on_app; [apply force_write_keeps|].
    repeat (apply heartbeat_inv_on_app; [intro a; repeat split|]). exact H.
  - apply heartbeat_inv_on_app; [intro a; repeat split|exact H].
  - apply heartbeat_inv_on_app; [intro a; repeat split|exact H].
  - apply heartbeat_inv_on_app; [intro a; repeat split|exact H].
  - unfold after_fires. destruct (ticks_pending w) as [|n] eqn:T; [exact H|].
    apply auto_send_loop_inv. cbn. apply H.
Qed.

End WindowFacts.

(** X10: whatever the user does, in whatever order (connecting and
    disconnecting, sending, heartbeat button, emergency stop, sliders,
    typing in the fields, flipping the switch) and whenever the timer
    fires, the heartbeat is on only while the application is connected,
    a connected application has a port, and while the heartbeat is on at
    least one call of [_auto_send_loop] is scheduled, so that the
    heartbeat goes on. *)
Theorem heartbeat_on_only_while_connected (events : list Event) :
  let w := run events window_init in
  (is_connected (sapp w) = true -> ser (sapp w) = true) /\
  (is_auto_sending (sapp w) = true ->
   is_connected (sapp w) = true /\ (1 <= ticks_pending w)%nat).
Proof.
  cbv zeta. change (heartbeat_inv (run events window_init)).
  assert (G : forall w, heartbeat_inv w -> heartbeat_inv (run events w)).
  { unfold run. induction events as [|e events IH]; intros w H; [exact H|].
    cbn [fold_left]. apply IH, handle_inv, H. }
  apply G. split; cbn; discriminate.
Qed.

Section Disconnected.

Lemma auto_send_loop_disconnected (w : Window) :
  is_connected (sapp w) = false ->
  ser_written (sapp (_auto_send_loop w)) = ser_written (sapp w) /\
  is_connected (sapp (_auto_send_loop w)) = false.
Proof.
  intro C. unfold _auto_send_loop. rewrite C, andb_false_r. cbn. auto.
Qed.

Lemma toggle_auto_send_disconnected (w : Window) :
  is_connected (sapp w) = false ->
  ser_written (sapp (_toggle_auto_send w)) = ser_written (sapp w) /\
  is_connected (sapp (_toggle_auto_send w)) = false.
Proof. intro C. unfold _toggle_auto_send. rewrite C. cbn. auto. Qed.

Lemma start_heartbeat_disconnected (w : Window) :
  is_connected (sapp w) = false ->
  ser_written (sapp (start_heartbeat w)) = ser_written (sapp w) /\
  is_connected (sapp (start_heartbeat w)) = false.
Proof.
  intro C. unfold start_heartbeat.
  destruct (negb (is_auto_sending (sapp w)));
    [apply toggle_auto_send_disconnected; exact C|auto].
Qed.

Lemma handle_disconnected (e : Event) (w : Window) :
  opens_no_port e -> is_connected (sapp w) = false ->
  ser_written (sapp (handle e w)) = ser_written (sapp w) /\
  is_connected (sapp (handle e w)) = false.
Proof.
  intros O C. destruct e as [port opened| | | |v|v|t|t| |]; cbn [handle].
  - cbn in O. subst opened. unfold _toggle_connection. rewrite C. cbn [negb].
    destruct (String.eqb port "Aucun port"); cbn; auto.
  - cbn. destruct (send_frame_keeps (sapp w)) as (K1 & _).
    rewrite K1. split; [apply send_frame_disconnected|]; exact C.
  - apply toggle_auto_send_disconnected, C.
  - unfold _emergency_stop. cbv zeta. cbn [sapp notice].
    destruct (start_heartbeat_disconnected
                (on_app (set_entry_data "0")
                   (on_app (set_entry_reg "01")
                      (on_app (set_slider_servo 0)
                         (on_app (set_slider_motor 0) w))))) as [W K];
      [exact C|].
    split; [rewrite W; reflexivity|exact K].
  - unfold _on_servo_slide, on_slide.
    destruct (PyConv.int_of_float v) as [n|]; [|auto].
    destruct (start_heartbeat_disconnected
                (on_app force_write
                   (on_app (set_entry_data (PyConv.str n))
                      (on_app (set_entry_reg "00")
                         (on_app (set_slider_servo n) w))))) as [W K].
    { cbn. destruct (force_write_keeps
                       (set_entry_data (PyConv.str n)
                          (set_entry_reg "00" (set_slider_servo n (sapp w)))))
        as [F _]. rewrite F. exact C. }
    split; [rewrite W|exact K]. cbn. unfold force_write.
    destruct (switch_rw _ =? 1); reflexivity.
  - unfold _on_motor_slide, on_slide.
    destruct (PyConv.int_of_float v) as [n|]; [|auto].
    destruct (start_heartbeat_disconnected
                (on_app force_write
                   (on_app (set_entry_data (PyConv.str n))
                      (on_app (set_entry_reg "01")
                         (on_app (set_slider_motor n) w))))) as [W K].
    { cbn. destruct (force_write_keeps
                       (set_entry_data (PyConv.str n)
                          (set_entry_reg "01" (set_slider_motor n (sapp w)))))
        as [F _]. rewrite F. exact C. }
    split; [rewrite W|exact K]. cbn. unfold force_write.
    destruct (switch_rw _ =? 1); reflexivity.
  - cbn. auto.
  - cbn. auto.
  - cbn. auto.
  - unfold after_fires. destruct (ticks_pending w); [auto|].
    apply (auto_send_loop_disconnected (set_ticks_pending n w)). exact C.
Qed.

End Disconnected.

(** X11: a disconnected application writes nothing to the port: from a
    state that is not connected, no sequence of clicks, slider moves,
    field changes and timer calls writes a frame as long as no click on
    the connection button opens a port; emergency stop and the sliders
    included.  In particular the calls of [_auto_send_loop] still
    scheduled when the user disconnects send nothing. *)
Theorem disconnected_writes_nothing (events : list Event) (w : Window) :
  is_connected (sapp w) = false ->
  Forall opens_no_port events ->
  ser_written (sapp (run events w)) = ser_written (sapp w) /\
  is_connected (sapp (run events w)) = false.
Proof.
  intros C F. revert w C. unfold run.
  induction F as [|e events O _ IH]; intros w C; [auto|].
  cbn [fold_left]. destruct (handle_disconnected e w O C) as [W K].
  destruct (IH _ K) as [W' K']. split; [congruence|exact K'].
Qed.

Lemma disconnected_writes_nothing_witness :
  ser_written
    (sapp (run [ClickAru; SlideMotor 250%float; TimerFires; ClickSend;
                ClickConnect "/dev/ttyACM0" false; ClickHeartBeat]
               window_init))
  = ser_written (sapp window_init) /\
  is_connected
    (sapp (run [ClickAru; SlideMotor 250%float; TimerFires; ClickSend;
                ClickConnect "/dev/ttyACM0" false; ClickHeartBeat]
               window_init))
  = false.
Proof.
  apply (disconnected_writes_nothing
           [ClickAru; SlideMotor 250%float; TimerFires; ClickSend;
            ClickConnect "/dev/ttyACM0" false; ClickHeartBeat]
           window_init).
  - reflexivity.
  - repeat constructor.
Defined.

Section Stop.

(** A call of [_auto_send_loop] while the heartbeat is on and the
    application connected: one frame more, nothing in the log. *)
Lemma auto_send_loop_sends (w : Window) (r v : Z) :
  is_auto_sending (sapp w) = true ->
  is_connected (sapp w) = true -> ser (sapp w) = true ->
  Py.int (Py.strip (entry_reg (sapp w))) 16 = Some r ->
  int_or_zero (Py.strip (entry_data (sapp w))) = Some v ->
  let is_read := switch_rw (sapp w) =? 1 in
  let header := Z.lor (if is_read then 0x80 else 0x00) (Z.land r 0x7F) in
  let byte0 := Z.land v 0xFF in
  let byte1 := if is_read then 0x00 else Z.land (Z.shiftr v 8) 0xFF in
  let frame := [header; byte0; byte1; crc8_atm [header; byte0; byte1]] in
  ser_written (sapp (_auto_send_loop w)) = ser_written (sapp w) ++ [frame] /\
  txt_log (sapp (_auto_send_loop w)) = txt_log (sapp w) /\
  ticks_pending (_auto_send_loop w) = S (ticks_pending w).
Proof.
  intros A C S Er Ev. cbv zeta.
  destruct (send_frame_connected (sapp w) r v C S Er Ev) as [W L].
  unfold _auto_send_loop. rewrite A, C.
  cbn [andb sapp on_app set_ticks_pending ticks_pending].
  rewrite A in L. rewrite app_nil_r in L. auto.
Qed.

End Stop.

Section HeartbeatStart.

Lemma start_heartbeat_connected (w : Window) (r v : Z) :
  is_connected (sapp w) = true -> ser (sapp w) = true ->
  Py.int (Py.strip (entry_reg (sapp w))) 16 = Some r ->
  int_or_zero (Py.strip (entry_data (sapp w))) = Some v ->
  let is_read := switch_rw (sapp w) =? 1 in
  let header := Z.lor (if is_read then 0x80 else 0x00) (Z.land r 0x7F) in
  let byte0 := Z.land v 0xFF in
  let byte1 := if is_read then 0x00 else Z.land (Z.shiftr v 8) 0xFF in
  let frame := [header; byte0; byte1; crc8_atm [header; byte0; byte1]] in
  let w' := start_heartbeat w in
  is_auto_sending (sapp w') = true /\
  is_connected (sapp w') = true /\ ser (sapp w') = true /\
  entry_reg (sapp w') = entry_reg (sapp w) /\
  entry_data (sapp w') = entry_data (sapp w) /\
  switch_rw (sapp w') = switch_rw (sapp w) /\
  ser_written (sapp w')
  = ser_written (sapp w) ++ (if is_auto_sending (sapp w) then [] else [frame]).
Proof.
  intros C S Er Ev. cbv zeta. unfold start_heartbeat.
  destruct (is_auto_sending (sapp w)) eqn:A; cbn [negb].
  - rewrite app_nil_r. auto 10.
  - unfold _toggle_auto_send. rewrite C, A. cbn [negb].
    set (w1 := on_app (set_is_auto_sending true) w).
    destruct (auto_send_loop_sends w1 r v) as (W & _ & _);
      try assumption; try reflexivity.
    destruct (send_frame_keeps (sapp w1)) as (K1 & K2 & K3 & K4 & K5 & K6).
    assert (U : sapp (_auto_send_loop w1) = _send_frame (sapp w1)).
    { unfold _auto_send_loop.
      replace (is_auto_sending (sapp w1) && is_connected (sapp w1)) with true
        by (symmetry; apply andb_true_iff; split; [reflexivity|exact C]).
      reflexivity. }
    rewrite U in *. rewrite K1, K2, K3, K4, K5, K6.
    repeat split; assumption.
Qed.

End HeartbeatStart.

(** X12: a click on the emergency stop button while connected leaves the
    heartbeat on with register [01] and data [0] in the fields; if the
    heartbeat was off it sends the frame at once, and every later call of
    [_auto_send_loop] sends it again.  The handler sets the fields but
    not the READ/WRITE switch: the frame is the write of 0 to register
    0x01, [0x01; 0; 0; crc], when the switch is on WRITE, and the READ
    request [0x81; 0; 0; crc] when it is on READ. *)
Theorem emergency_stop_sends_register_1_zero (w : Window) :
  is_connected (sapp w) = true -> ser (sapp w) = true ->
  let w' := _emergency_stop w in
  let header := if switch_rw (sapp w) =? 1 then 0x81 else 0x01 in
  let frame := [header; 0x00; 0x00; crc8_atm [header; 0x00; 0x00]] in
  is_auto_sending (sapp w') = true /\
  entry_reg (sapp w') = "01"%string /\ entry_data (sapp w') = "0"%string /\
  switch_rw (sapp w') = switch_rw (sapp w) /\
  ser_written (sapp w')
  = ser_written (sapp w) ++ (if is_auto_sending (sapp w) then [] else [frame]) /\
  ser_written (sapp (_auto_send_loop w')) = ser_written (sapp w') ++ [frame].
Proof.
  intros C S. cbv zeta. unfold _emergency_stop. cbv zeta.
  set (w1 := on_app (set_entry_data "0")
               (on_app (set_entry_reg "01")
                  (on_app (set_slider_servo 0) (on_app (set_slider_motor 0) w)))).
  destruct (start_heartbeat_connected w1 1 0) as (A & C' & S' & Hr & Hd & Hs & W);
    try assumption; try reflexivity.
  cbv zeta in W.
  change (switch_rw (sapp w1)) with (switch_rw (sapp w)) in *.
  change (ser_written (sapp w1)) with (ser_written (sapp w)) in *.
  change (is_auto_sending (sapp w1)) with (is_auto_sending (sapp w)) in *.
  change (entry_reg (sapp w1)) with "01"%string in *.
  change (entry_data (sapp w1)) with "0"%string in *.
  set (w2 := start_heartbeat w1) in *.
  assert (Fr : forall sw : Z,
             [Z.lor (if sw =? 1 then 0x80 else 0x00) (Z.land 1 0x7F);
              Z.land 0 0xFF;
              if sw =? 1 then 0x00 else Z.land (Z.shiftr 0 8) 0xFF;
              crc8_atm [Z.lor (if sw =? 1 then 0x80 else 0x00) (Z.land 1 0x7F);
                        Z.land 0 0xFF;
                        if sw =? 1 then 0x00 else Z.land (Z.shiftr 0 8) 0xFF]]
             = [if sw =? 1 then 0x81 else 0x01; 0x00; 0x00;
                crc8_atm [if sw =? 1 then 0x81 else 0x01; 0x00; 0x00]])
    by (intro sw; destruct (sw =? 1); reflexivity).
  rewrite Fr in W.
  change (sapp (notice NoticeAru w2)) with (sapp w2).
  repeat split; try assumption.
  destruct (auto_send_loop_sends (notice NoticeAru w2) 1 0) as (W2 & _);
    try assumption.
  - change (sapp (notice NoticeAru w2)) with (sapp w2). rewrite Hr. reflexivity.
  - change (sapp (notice NoticeAru w2)) with (sapp w2). rewrite Hd. reflexivity.
  - cbv zeta in W2.
    change (sapp (notice NoticeAru w2)) with (sapp w2) in W2.
    rewrite Hs, Fr in W2. exact W2.
Qed.

Lemma emergency_stop_sends_register_1_zero_witness :
  ser_written
    (sapp (_emergency_stop (mkWindow read_reg_2a_no_data false 0 [])))
  = [[0x81; 0x00; 0x00; 0x60]].
Proof.
  exact (proj1 (proj2 (proj2 (proj2 (proj2
           (emergency_stop_sends_register_1_zero
              (mkWindow read_reg_2a_no_data false 0 []) eq_refl eq_refl)))))).
Defined.

Section Sliders.

Lemma int_or_zero_str (n : Z) :
  -32768 <= n < 32768 -> int_or_zero (Py.strip (PyConv.str n)) = Some n.
Proof.
  intro R. unfold int_or_zero.
  destruct (Py.strip (PyConv.str n)) as [|c t] eqn:E.
  - exfalso. exact (str_not_empty n E).
  - rewrite <- E. apply int_of_str_16bit. exact R.
Qed.

Lemma force_write_switch (a : SerialApp) :
  (switch_rw (force_write a) =? 1) = false /\
  entry_reg (force_write a) = entry_reg a /\
  entry_data (force_write a) = entry_data a /\
  ser_written (force_write a) = ser_written a.
Proof.
  unfold force_write. destruct (switch_rw a =? 1) eqn:E.
  - repeat split.
  - rewrite E. repeat split.
Qed.

(** The common body of the two slider callbacks, for a label setter that
    leaves the connection, the heartbeat flag and the frames written as
    they are. *)
Lemma on_slide_sends (reg : string) (label : Z -> SerialApp -> SerialApp)
      (r : Z) (value : float) (n : Z) (w : Window) :
  (forall m a, is_connected (label m a) = is_connected a /\
               ser (label m a) = ser a /\
               is_auto_sending (label m a) = is_auto_sending a /\
               ser_written (label m a) = ser_written a) ->
  Py.int (Py.strip reg) 16 = Some r -> Z.land r 0x7F = r ->
  PyConv.int_of_float value = Some n -> -32768 <= n < 32768 ->
  is_connected (sapp w) = true -> ser (sapp w) = true ->
  let byte0 := Z.land n 0xFF in
  let byte1 := Z.land (Z.shiftr n 8) 0xFF in
  let frame := [r; byte0; byte1; crc8_atm [r; byte0; byte1]] in
  let w' := on_slide reg label value w in
  is_auto_sending (sapp w') = true /\
  (switch_rw (sapp w') =? 1) = false /\
  entry_reg (sapp w') = reg /\ entry_data (sapp w') = PyConv.str n /\
  ser_written (sapp w')
  = ser_written (sapp w) ++ (if is_auto_sending (sapp w) then [] else [frame]) /\
  ser_written (sapp (_auto_send_loop w')) = ser_written (sapp w') ++ [frame].
Proof.
  intros Hl Er Em Ef R C S. cbv zeta. unfold on_slide. rewrite Ef. cbv zeta.
  set (a1 := set_entry_data (PyConv.str n) (set_entry_reg reg (label n (sapp w)))).
  set (w1 := on_app force_write
               (on_app (set_entry_data (PyConv.str n))
                  (on_app (set_entry_reg reg) (on_app (label n) w)))).
  assert (E1 : sapp w1 = force_write a1) by reflexivity.
  destruct (Hl n (sapp w)) as (L1 & L2 & L3 & L4).
  destruct (force_write_keeps a1) as (F1 & F2 & F3).
  destruct (force_write_switch a1) as (F4 & F5 & F6 & F7).
  assert (C1 : is_connected (sapp w1) = true)
    by (rewrite E1, F1; exact (eq_trans L1 C)).
  assert (S1 : ser (sapp w1) = true) by (rewrite E1, F2; exact (eq_trans L2 S)).
  assert (A1 : is_auto_sending (sapp w1) = is_auto_sending (sapp w))
    by (rewrite E1, F3; exact L3).
  assert (W1 : ser_written (sapp w1) = ser_written (sapp w))
    by (rewrite E1, F7; exact L4).
  assert (R1 : entry_reg (sapp w1) = reg) by (rewrite E1, F5; reflexivity).
  assert (D1 : entry_data (sapp w1) = PyConv.str n)
    by (rewrite E1, F6; reflexivity).
  assert (M1 : (switch_rw (sapp w1) =? 1) = false) by (rewrite E1; exact F4).
  assert (Pr : Py.int (Py.strip (entry_reg (sapp w1))) 16 = Some r)
    by (rewrite R1; exact Er).
  assert (Pv : int_or_zero (Py.strip (entry_data (sapp w1))) = Some n)
    by (rewrite D1; apply int_or_zero_str; exact R).
  destruct (start_heartbeat_connected w1 r n C1 S1 Pr Pv)
    as (A & C' & S' & Hr & Hd & Hs & W).
  cbv zeta in W. rewrite M1, Em, A1, W1 in W. rewrite Z.lor_0_l in W.
  set (w2 := start_heartbeat w1) in *.
  assert (M2 : (switch_rw (sapp w2) =? 1) = false) by (rewrite Hs; exact M1).
  split; [exact A|]. split; [exact M2|].
  split; [rewrite Hr; exact R1|]. split; [rewrite Hd; exact D1|].
  split; [exact W|].
  destruct (auto_send_loop_sends w2 r n) as (W2 & _); try assumption.
  - rewrite Hr; exact Pr.
  - rewrite Hd; exact Pv.
  - cbv zeta in W2. rewrite M2, Em, Z.lor_0_l in W2. exact W2.
Qed.

End Sliders.

(** X13: moving a slider while connected, to a value whose integer part
    [n] is a signed 16-bit number, puts the register ([00] for the servo,
    [01] for the motor) and [str(n)] in the entry fields, forces the
    WRITE mode and leaves the heartbeat on; the write frame
    [reg; n & 0xFF; (n >> 8) & 0xFF; crc] is sent at once when the
    heartbeat was off, and again by every later call of
    [_auto_send_loop]. *)
Theorem slider_sends_its_value (value : float) (n : Z) (w : Window) :
  PyConv.int_of_float value = Some n -> -32768 <= n < 32768 ->
  is_connected (sapp w) = true -> ser (sapp w) = true ->
  let byte0 := Z.land n 0xFF in
  let byte1 := Z.land (Z.shiftr n 8) 0xFF in
  let frame reg := [reg; byte0; byte1; crc8_atm [reg; byte0; byte1]] in
  let sent reg (w' : Window) :=
    is_auto_sending (sapp w') = true /\
    (switch_rw (sapp w') =? 1) = false /\
    entry_data (sapp w') = PyConv.str n /\
    ser_written (sapp w')
    = ser_written (sapp w)
      ++ (if is_auto_sending (sapp w) then [] else [frame reg]) /\
    ser_written (sapp (_auto_send_loop w'))
    = ser_written (sapp w') ++ [frame reg] in
  (entry_reg (sapp (_on_servo_slide value w)) = "00"%string /\
   sent 0x00 (_on_servo_slide value w)) /\
  (entry_reg (sapp (_on_motor_slide value w)) = "01"%string /\
   sent 0x01 (_on_motor_slide value w)).
Proof.
  intros Ef R C S. cbv zeta. split.
  - destruct (on_slide_sends "00" set_slider_servo 0 value n w)
      as (A & M & Hr & Hd & W & W2); try assumption; try reflexivity.
    + intros m a. repeat split.
    + unfold _on_servo_slide. auto 10.
  - destruct (on_slide_sends "01" set_slider_motor 1 value n w)
      as (A & M & Hr & Hd & W & W2); try assumption; try reflexivity.
    + intros m a. repeat split.
    + unfold _on_motor_slide. auto 10.
Qed.

Lemma slider_sends_its_value_witness :
  ser_written (sapp (_on_motor_slide (-500)%float
                       (mkWindow read_reg_2a_no_data false 0 [])))
  = [[0x01; 0x0C; 0xFE; 0x63]].
Proof.
  assert (R : -32768 <= -500 < 32768) by lia.
  exact (proj1 (proj2 (proj2 (proj2 (proj2 (proj2
           (slider_sends_its_value (-500)%float (-500)
              (mkWindow read_reg_2a_no_data false 0 [])
              eq_refl R eq_refl eq_refl))))))).
Defined.

Section Timers.

Lemma auto_send_loop_on (w : Window) :
  is_auto_sending (sapp w) = true -> is_connected (sapp w) = true ->
  _auto_send_loop w
  = set_ticks_pending (S (ticks_pending w)) (on_app _send_frame w).
Proof.
  intros A C. unfold _auto_send_loop. rewrite A, C. reflexivity.
Qed.

Lemma auto_send_loop_off (w : Window) :
  is_auto_sending (sapp w) = false ->
  _auto_send_loop w = on_app (set_is_auto_sending false) w.
Proof.
  intro A. unfold _auto_send_loop. rewrite A. reflexivity.
Qed.

End Timers.

(** X14: the callbacks registered with [after] are never cancelled.
    While connected, a callback that fires with the heartbeat on runs
    [_send_frame] and registers its successor, so the number of pending
    callbacks stays the same; one that fires with the heartbeat off
    writes nothing and registers nothing.  Hence switching the heartbeat
    off and on again before the pending callbacks have fired leaves the
    heartbeat on with one pending callback more than before. *)
Theorem heartbeat_callbacks_accumulate (w : Window) :
  is_connected (sapp w) = true ->
  (is_auto_sending (sapp w) = true ->
   ticks_pending (handle TimerFires w) = ticks_pending w /\
   is_auto_sending (sapp (handle TimerFires w)) = true /\
   (ticks_pending w <> O ->
    sapp (handle TimerFires w) = _send_frame (sapp w))) /\
  (is_auto_sending (sapp w) = false ->
   ticks_pending (handle TimerFires w) = Nat.pred (ticks_pending w) /\
   ser_written (sapp (handle TimerFires w)) = ser_written (sapp w) /\
   txt_log (sapp (handle TimerFires w)) = txt_log (sapp w)) /\
  (is_auto_sending (sapp w) = true ->
   let w' := run [ClickHeartBeat; ClickHeartBeat] w in
   is_auto_sending (sapp w') = true /\ is_connected (sapp w') = true /\
   ticks_pending w' = S (ticks_pending w)).
Proof.
  intro C. split; [|split].
  - intro A. unfold handle, after_fires.
    destruct (ticks_pending w) as [|k] eqn:T;
      [split; [assumption|split; [assumption|intro N; contradiction]]|].
    rewrite auto_send_loop_on by assumption.
    destruct (send_frame_keeps (sapp w)) as (_ & _ & K & _).
    cbn [ticks_pending set_ticks_pending on_app sapp].
    split; [reflexivity|]. split; [rewrite K; exact A|]. reflexivity.
  - intro A. unfold handle, after_fires.
    destruct (ticks_pending w) as [|k] eqn:T; [rewrite T; repeat split|].
    rewrite auto_send_loop_off by assumption. repeat split.
  - intro A. cbv zeta. unfold run. cbn [fold_left handle].
    assert (E1 : _toggle_auto_send w = on_app (set_is_auto_sending false) w).
    { unfold _toggle_auto_send. rewrite C, A. reflexivity. }
    rewrite E1.
    set (w1 := on_app (set_is_auto_sending false) w).
    assert (E2 : _toggle_auto_send w1
                 = _auto_send_loop (on_app (set_is_auto_sending true) w1)).
    { unfold _toggle_auto_send.
      change (is_connected (sapp w1)) with (is_connected (sapp w)).
      rewrite C. reflexivity. }
    rewrite E2.
    set (w2 := on_app (set_is_auto_sending true) w1).
    rewrite auto_send_loop_on by (try reflexivity; exact C).
    destruct (send_frame_keeps (sapp w2)) as (K1 & _ & K3 & _).
    cbn [ticks_pending set_ticks_pending on_app sapp].
    rewrite K1, K3. repeat split. exact C.
Qed.

Lemma heartbeat_callbacks_accumulate_witness :
  ticks_pending
    (run [ClickHeartBeat; ClickHeartBeat; ClickHeartBeat]
       (mkWindow read_reg_2a_no_data false 0 []))
  = 2%nat.
Proof.
  exact (proj2 (proj2
           (proj2 (proj2 (heartbeat_callbacks_accumulate
                            (handle ClickHeartBeat
                               (mkWindow read_reg_2a_no_data false 0 []))
                            eq_refl))
              eq_refl))).
Defined.
